(** * collect_metrics: a shallow embedding of [scripts/collect_metrics.py]

    The script fetches CPU-utilisation time series from a monitoring backend,
    turns every series into a pandas frame and renders a chart.  The
    definitions below follow the Python source function by function; the
    libraries it calls (protobuf messages, pandas, pyplot, [os]) are modelled
    by the small part of their behaviour that the script exercises. *)

From Stdlib Require Import ZArith Ascii String Floats Uint63.
From stdpp Require Import gmap strings list fin_maps.

Local Open Scope string_scope.
Local Open Scope Z_scope.
Local Open Scope list_scope.

(** ** Exceptions and results *)

Inductive PyError :=
| KeyError (key : string)
| FileExistsError (path : list string)
| FileNotFoundError (path : list string)
| NotADirectoryError (path : list string)
| IsADirectoryError (path : list string)
| BackendError (msg : string)
| TypeError (msg : string).

Inductive Result (A : Type) :=
| Ok (a : A)
| Raise (e : PyError).
Arguments Ok {A} a.
Arguments Raise {A} e.

(** ** Protobuf messages of the monitoring API *)

Module Proto.

Record Timestamp := { seconds : Z; nanos : Z }.

Record TimeInterval := { start_time : Timestamp; end_time : Timestamp }.

(** [TypedValue] is a protobuf [oneof]: at most one member is set. *)
Inductive TypedValue :=
| NoValue
| BoolValue (b : bool)
| Int64Value (i : Z)
| DoubleValue (d : float)
| StringValue (s : string)
| DistributionValue.

(** Reading a member that is not the one set yields the default of its
    type: [0.0] for a double, [0] for an int64. *)
Definition double_value (v : TypedValue) : float :=
  match v with DoubleValue d => d | _ => 0%float end.

Definition int64_value (v : TypedValue) : Z :=
  match v with Int64Value i => i | _ => 0 end.

Record Point := { interval : TimeInterval; value : TypedValue }.

Record Metric := { metric_type : string; labels : gmap string string }.

Record TimeSeries := { metric : Metric; points : list Point }.

Inductive TimeSeriesView := FULL | HEADERS.

Record ListTimeSeriesRequest := {
  req_name : string;
  req_filter : string;
  req_interval : TimeInterval;
  req_view : TimeSeriesView
}.

End Proto.
Export Proto.

#[global] Instance Timestamp_eq_dec : EqDecision Timestamp.
Proof. solve_decision. Defined.

(** ** Python values held in rows and frames *)

Inductive PyVal :=
| PyNone
| PyFloat (f : float)
| PyInt (z : Z)
| PyTime (t : Timestamp).

(** Truthiness as [if x:] tests it: a float is false exactly when it
    compares equal to zero (so [-0.0] is false and NaN is true), an int
    exactly when it is [0]. *)
Definition float_truthy (x : float) : bool := negb (PrimFloat.eqb x 0%float).
Definition int_truthy (z : Z) : bool := negb (Z.eqb z 0).

(** ** The part of pandas the script uses *)

Module pd.

(** A row handed to [pd.DataFrame] is a dict; insertion order matters for
    the column order, so it is kept as an association list. *)
Definition Row := list (string * PyVal).

Inductive Index :=
| RangeIndex (n : nat)
| LabelIndex (name : string) (labels : list PyVal).

Record DataFrame := {
  index : Index;
  columns : list (string * list PyVal)
}.

Record Series := {
  s_index : Index;
  s_name : string;
  s_values : list PyVal
}.

(** [pd.to_datetime] of the datetime the client hands out; it reads the
    datetime's microsecond field, so what the protobuf timestamp has below
    a microsecond is dropped. *)
Definition to_datetime (t : Timestamp) : PyVal :=
  PyTime {| seconds := seconds t; nanos := nanos t / 1000 * 1000 |}.

Fixpoint dict_get (k : string) (r : Row) : option PyVal :=
  match r with
  | [] => None
  | (k', v) :: r' => if decide (k' = k) then Some v else dict_get k r'
  end.

Definition nan : float := PrimFloat.nan.

Definition is_int (v : PyVal) : bool :=
  match v with PyInt _ => true | _ => false end.

Definition is_number (v : PyVal) : bool :=
  match v with PyInt _ | PyFloat _ => true | _ => false end.

Definition is_number_or_None (v : PyVal) : bool :=
  match v with PyInt _ | PyFloat _ | PyNone => true | _ => false end.

(** An int64 as a double, rounded to nearest as the C conversion does. *)
Definition int64_to_float (z : Z) : float :=
  if Z.eqb z (- 9223372036854775808) then (-9223372036854775808)%float
  else if Z.ltb z 0 then PrimFloat.opp (PrimFloat.of_uint63 (Uint63.of_Z (- z)))
  else PrimFloat.of_uint63 (Uint63.of_Z z).

Definition to_float (v : PyVal) : PyVal :=
  match v with
  | PyInt z => PyFloat (int64_to_float z)
  | PyNone => PyFloat nan
  | other => other
  end.

(** The dtype pandas infers for a column of Python objects, as far as the
    cells of this script go: integers alone stay integers (int64); numbers
    mixed with floats or [None] become float64, an integer turning into
    the nearest double and [None] into NaN; anything else (timestamps, or
    nothing but [None]) keeps its cells. *)
Definition coerce_column (cells : list PyVal) : list PyVal :=
  if forallb is_int cells then cells
  else if existsb is_number cells && forallb is_number_or_None cells
       then map to_float cells
  else cells.

(** [pd.DataFrame(rows)] for a list of dicts: one column per key, in order
    of first appearance; a key a row lacks is filled with NaN; no rows
    give a frame without columns. *)
Definition DataFrame_of_rows (rows : list Row) : DataFrame :=
  let keys := remove_dups (concat (map (map fst) rows)) in
  {| index := RangeIndex (length rows);
     columns :=
       map (fun k =>
              (k, coerce_column
                    (map (fun r => default (PyFloat nan) (dict_get k r)) rows)))
           keys |}.


Fixpoint find_column (k : string) (cols : list (string * list PyVal))
  : option (list PyVal) :=
  match cols with
  | [] => None
  | (k', vs) :: cols' => if decide (k' = k) then Some vs else find_column k cols'
  end.

Definition drop_column (k : string) (cols : list (string * list PyVal))
  : list (string * list PyVal) :=
  filter (fun c => c.1 ≠ k) cols.

(** [df.set_index(key)]: the column becomes the index and leaves the
    columns; an unknown key raises [KeyError]. *)
Definition set_index (key : string) (df : DataFrame) : Result DataFrame :=
  match find_column key (columns df) with
  | None => Raise (KeyError key)
  | Some vs =>
      Ok {| index := LabelIndex key vs; columns := drop_column key (columns df) |}
  end.

(** [df.rename(columns=mapping)]: names absent from the mapping stay. *)
Definition rename (mapping : gmap string string) (df : DataFrame) : DataFrame :=
  {| index := index df;
     columns := map (fun c => (default c.1 (mapping !! c.1), c.2)) (columns df) |}.

(** [df[key]]: the column as a series, [KeyError] when there is none. *)
Definition getitem (key : string) (df : DataFrame) : Result Series :=
  match find_column key (columns df) with
  | None => Raise (KeyError key)
  | Some vs => Ok {| s_index := index df; s_name := key; s_values := vs |}
  end.

Definition column_names (df : DataFrame) : list string := map fst (columns df).

(** The cell of column [k] in row [i]. *)
Definition cell (df : DataFrame) (k : string) (i : nat) : option PyVal :=
  match find_column k (columns df) with
  | Some cells => cells !! i
  | None => None
  end.

Definition index_labels (df : DataFrame) : list PyVal :=
  match index df with
  | RangeIndex n => map (fun i => PyInt (Z.of_nat i)) (seq 0 n)
  | LabelIndex _ ls => ls
  end.

End pd.

(** ** [timeseries_to_df] *)

(** The branch on the two value fields, lines 12-16. *)
Definition point_value (point : Point) : PyVal :=
  if float_truthy (double_value (value point)) then
    PyFloat (double_value (value point))
  else if int_truthy (int64_value (value point)) then
    PyInt (int64_value (value point))
  else PyNone.

Definition point_row (point : Point) : pd.Row :=
  [("time", pd.to_datetime (end_time (interval point)));
   ("value", point_value point)].

(** The loop of lines 9-17: every point appends one row. *)
Definition timeseries_rows (series : TimeSeries) : list pd.Row :=
  fold_left (fun rows point => rows ++ [point_row point]) (points series) [].

Definition timeseries_to_df (series : TimeSeries) : pd.DataFrame :=
  pd.DataFrame_of_rows (timeseries_rows series).

(** ** pyplot figures *)

Module plt.

Record Line := {
  line_label : string;
  xdata : list PyVal;
  ydata : list PyVal
}.

Record Figure := {
  lines : list Line;
  title : string;
  xlabel : string;
  ylabel : string
}.

Definition empty_figure : Figure :=
  {| lines := []; title := EmptyString; xlabel := EmptyString;
     ylabel := EmptyString |}.

(** pyplot keeps a stack of figures; the head is the current one, and a
    drawing call with no figure open creates one first. *)
Definition gcf (figs : list Figure) : Figure :=
  match figs with [] => empty_figure | f :: _ => f end.

Definition set_gcf (f : Figure) (figs : list Figure) : list Figure :=
  match figs with [] => [f] | _ :: rest => f :: rest end.

Definition add_line (l : Line) (f : Figure) : Figure :=
  {| lines := lines f ++ [l]; title := title f;
     xlabel := xlabel f; ylabel := ylabel f |}.

Definition with_title (t : string) (f : Figure) : Figure :=
  {| lines := lines f; title := t; xlabel := xlabel f; ylabel := ylabel f |}.

Definition with_xlabel (t : string) (f : Figure) : Figure :=
  {| lines := lines f; title := title f; xlabel := t; ylabel := ylabel f |}.

Definition with_ylabel (t : string) (f : Figure) : Figure :=
  {| lines := lines f; title := title f; xlabel := xlabel f; ylabel := t |}.

End plt.

(** ** The world the script runs in *)

(** Paths.  The file system is a tree below the working directory, keyed by
    the list of path components; [path_components] reads a path string the
    way the kernel resolves it (empty and [.] components vanish).  Parent
    references [..] and a root other than the working directory are outside
    the model. *)
Abbreviation Path := (list string).

Definition flush_component (cur : string) : Path :=
  if decide (cur = EmptyString) then []
  else if decide (cur = ".") then [] else [cur].

Fixpoint components_from (s : string) (cur : string) : Path :=
  match s with
  | EmptyString => flush_component cur
  | String c s' =>
      if Ascii.eqb c "/"%char then flush_component cur ++ components_from s' EmptyString
      else components_from s' (String.append cur (String c EmptyString))
  end.

Definition path_components (s : string) : Path := components_from s EmptyString.

Fixpoint ends_with_slash (s : string) : bool :=
  match s with
  | EmptyString => false
  | String c EmptyString => Ascii.eqb c "/"%char
  | String _ s' => ends_with_slash s'
  end.

Definition starts_with_slash (s : string) : bool :=
  match s with
  | String c _ => Ascii.eqb c "/"%char
  | EmptyString => false
  end.

Inductive FileData :=
| PNG (fig : plt.Figure)
| Bytes (data : string).

Inductive Node :=
| Dir
| File (data : FileData).

Record World := {
  fs : gmap (list string) Node;
  environ : gmap string string;
  (** the naive UTC wall clock, in microseconds *)
  clock : Z;
  (** offset of local time from UTC, in seconds, at a local wall-clock
      second *)
  utcoffset : Z -> Z;
  (** what the monitoring backend answers to a query *)
  backend : ListTimeSeriesRequest -> Result (list TimeSeries);
  (** the queries issued so far, oldest first *)
  requests : list ListTimeSeriesRequest;
  figures : list plt.Figure
}.

Definition set_fs (f : gmap (list string) Node) (w : World) : World :=
  {| fs := f; environ := environ w; clock := clock w; utcoffset := utcoffset w;
     backend := backend w; requests := requests w; figures := figures w |}.

Definition set_requests (r : list ListTimeSeriesRequest) (w : World) : World :=
  {| fs := fs w; environ := environ w; clock := clock w; utcoffset := utcoffset w;
     backend := backend w; requests := r; figures := figures w |}.

Definition set_figures (f : list plt.Figure) (w : World) : World :=
  {| fs := fs w; environ := environ w; clock := clock w; utcoffset := utcoffset w;
     backend := backend w; requests := requests w; figures := f |}.

(** Computations that read and change the world and may raise; the world
    reached when an exception escapes is kept. *)
Definition M (A : Type) : Type := World -> Result A * World.

Definition ret {A} (a : A) : M A := fun w => (Ok a, w).

Definition raise {A} (e : PyError) : M A := fun w => (Raise e, w).

Definition bind {A B} (c : M A) (k : A -> M B) : M B :=
  fun w =>
    match c w with
    | (Ok a, w') => k a w'
    | (Raise e, w') => (Raise e, w')
    end.

Definition lift {A} (r : Result A) : M A := fun w => (r, w).

Notation "'let*' x := c 'in' k" := (bind c (fun x => k))
  (at level 10, x name, c at level 100, k at level 200, only parsing).

(** [for x in xs: body] *)
Fixpoint for_each {A} (xs : list A) (body : A -> M unit) : M unit :=
  match xs with
  | [] => ret tt
  | x :: rest => let* _ := body x in for_each rest body
  end.

(** ** The part of [os] the script uses *)

Module os.

Definition exists_ (p : Path) (w : World) : bool :=
  match fs w !! p with Some _ => true | None => false end.

Definition isdir (p : Path) (w : World) : bool :=
  match fs w !! p with Some Dir => true | _ => false end.

Definition parent (p : Path) : Path := removelast p.

(** [os.mkdir]: the directory must not exist and its parent must be a
    directory.  The working directory [[]] always counts as present. *)
Definition mkdir (p : Path) : M unit := fun w =>
  match fs w !! p with
  | Some _ => (Raise (FileExistsError p), w)
  | None =>
      match fs w !! parent p with
      | Some Dir => (Ok tt, set_fs (<[p := Dir]> (fs w)) w)
      | Some (File _) => (Raise (NotADirectoryError p), w)
      | None => (Raise (FileNotFoundError p), w)
      end
  end.

(** The two [try] blocks of [os.makedirs]. *)
Definition swallow_FileExistsError (r : Result unit * World)
  : Result unit * World :=
  match r with
  | (Raise (FileExistsError _), w') => (Ok tt, w')
  | other => other
  end.

Definition try_mkdir (name : Path) (exist_ok : bool) : M unit := fun w =>
  match mkdir name w with
  | (Raise e, w') =>
      if negb exist_ok || negb (isdir name w') then (Raise e, w')
      else (Ok tt, w')
  | ok => ok
  end.

(** [os.makedirs(name, exist_ok=...)] as CPython defines it, on the
    reversed component list so that [head] is a structural subterm:

    [[
      head, tail = path.split(name)
      if head and tail and not path.exists(head):
          try: makedirs(head, exist_ok=exist_ok)
          except FileExistsError: pass
      try: mkdir(name, mode)
      except OSError:
          if not exist_ok or not path.isdir(name): raise
    ]] *)
Fixpoint makedirs_rev (rname : list string) (exist_ok : bool) : M unit :=
  fun w =>
    let head_done : Result unit * World :=
      match rname with
      | _ :: (_ :: _) as rhead =>
          if exists_ (rev rhead) w then (Ok tt, w)
          else swallow_FileExistsError (makedirs_rev rhead exist_ok w)
      | _ => (Ok tt, w)
      end in
    match head_done with
    | (Raise e, w1) => (Raise e, w1)
    | (Ok _, w1) => try_mkdir (rev rname) exist_ok w1
    end.

(** The empty name is no path at all: [mkdir] answers ENOENT and [isdir]
    is false, so the exception escapes whatever [exist_ok] says. *)
Definition makedirs (name : string) (exist_ok : bool) : M unit :=
  if decide (name = EmptyString) then raise (FileNotFoundError [])
  else makedirs_rev (rev (path_components name)) exist_ok.

(** [os.environ[key]] *)
Definition environ_getitem (key : string) : M string := fun w =>
  match environ w !! key with
  | Some v => (Ok v, w)
  | None => (Raise (KeyError key), w)
  end.

(** [os.path.join(a, b)] on POSIX. *)
Definition path_join (a b : string) : string :=
  if starts_with_slash b then b
  else if decide (a = EmptyString) then b
  else if ends_with_slash a then String.append a b
  else String.append a (String.append "/" b).

End os.

(** ** Dates *)

Module datetime.

(** A naive datetime, in microseconds. *)
Definition utcnow : M Z := fun w => (Ok (clock w), w).

Definition timedelta_minutes (m : Z) : Z := m * 60 * 1000000.

(** [dt.timestamp()] for a naive [dt]: it is read as local time, and the
    result is the double [seconds + microsecond / 1e6], where [seconds] are
    the whole seconds since the epoch. *)
Definition timestamp (offset : Z -> Z) (dt : Z) : float :=
  let local_seconds := dt / 1000000 in
  let microsecond := dt mod 1000000 in
  PrimFloat.add
    (pd.int64_to_float (local_seconds - offset local_seconds))
    (PrimFloat.div (pd.int64_to_float microsecond) 1000000%float).

(** [int(x)] of a float truncates towards zero.  (Infinities and NaN,
    which [int] refuses, cannot come out of [timestamp].) *)
Definition int_of_float (x : float) : Z :=
  match Prim2SF x with
  | S754_finite s m e =>
      let magnitude :=
        if Z.leb 0 e then Z.pos m * 2 ^ e else Z.pos m / 2 ^ (- e) in
      if s then - magnitude else magnitude
  | _ => 0
  end.

(** [int(dt.timestamp())] *)
Definition int_timestamp (dt : Z) : M Z := fun w =>
  (Ok (int_of_float (timestamp (utcoffset w) dt)), w).

End datetime.

(** ** The monitoring client *)

Module monitoring_v3.

Inductive MetricServiceClient : Set := Client.

Definition new_client : M MetricServiceClient := ret Client.

Definition common_project_path (project : string) : string :=
  String.append "projects/" project.

(** One call is one query: it is logged, and the backend's answer (or
    error) comes back. *)
Definition list_time_series (client : MetricServiceClient)
    (request : ListTimeSeriesRequest) : M (list TimeSeries) := fun w =>
  (backend w request, set_requests (requests w ++ [request]) w).

Definition TimeInterval_of_seconds (end_s start_s : Z) : TimeInterval :=
  {| end_time := {| seconds := end_s; nanos := 0 |};
     start_time := {| seconds := start_s; nanos := 0 |} |}.

End monitoring_v3.

(** ** pyplot calls *)

Definition plt_figure : M unit := fun w =>
  (Ok tt, set_figures (plt.empty_figure :: figures w) w).

Definition on_gcf (f : plt.Figure -> plt.Figure) : M unit := fun w =>
  (Ok tt, set_figures (plt.set_gcf (f (plt.gcf (figures w))) (figures w)) w).

(** [series.plot()]: one line, values against the index, on the current
    figure; a column without numeric dtype (here: nothing but [None]) is
    refused. *)
Definition Series_plot (s : pd.Series) : M unit :=
  if negb (forallb pd.is_number (pd.s_values s)) then
    raise (TypeError "no numeric data to plot")
  else
  on_gcf (plt.add_line
            {| plt.line_label := pd.s_name s;
               plt.xdata := match pd.s_index s with
                            | pd.RangeIndex n =>
                                map (fun i => PyInt (Z.of_nat i)) (seq 0 n)
                            | pd.LabelIndex _ ls => ls
                            end;
               plt.ydata := pd.s_values s |}).

Definition plt_title (t : string) : M unit := on_gcf (plt.with_title t).
Definition plt_xlabel (t : string) : M unit := on_gcf (plt.with_xlabel t).
Definition plt_ylabel (t : string) : M unit := on_gcf (plt.with_ylabel t).

(** [plt.savefig(path)]: the current figure is written to [path], whose
    parent must be a directory and which must not itself be one. *)
Definition plt_savefig (path : string) : M unit := fun w =>
  let p := path_components path in
  match fs w !! os.parent p with
  | Some Dir =>
      match fs w !! p with
      | Some Dir => (Raise (IsADirectoryError p), w)
      | _ => (Ok tt, set_fs (<[p := File (PNG (plt.gcf (figures w)))]> (fs w)) w)
      end
  | Some (File _) => (Raise (NotADirectoryError p), w)
  | None => (Raise (FileNotFoundError p), w)
  end.

(** ** [fetch_metric] *)

Definition fetch_metric (client : monitoring_v3.MetricServiceClient)
    (project filter_ : string) (interval : TimeInterval) : M (list TimeSeries) :=
  let* results :=
    monitoring_v3.list_time_series client
      {| req_name := String.append "projects/" project;
         req_filter := filter_;
         req_interval := interval;
         req_view := FULL |} in
  ret results.

(** ** [main] *)

Record Args := {
  out_dir : string;
  start : option string;
  end_ : option string
}.

(** The label that heads a series' column, line 59. *)
Definition display_key (s : TimeSeries) : string :=
  default "instance" (labels (metric s) !! "instance_name").

(** The body of the loop of lines 57-59 for one series. *)
Definition series_frame (s : TimeSeries) : Result pd.DataFrame :=
  let df := timeseries_to_df s in
  match pd.set_index "time" df with
  | Raise e => Raise e
  | Ok indexed => Ok (pd.rename {[ "value" := display_key s ]} indexed)
  end.

(** Lines 56-59: [frames] grows by one frame per series, in order; the
    first exception ends the loop. *)
Fixpoint frames_loop (series : list TimeSeries) (frames : list pd.DataFrame)
  : Result (list pd.DataFrame) :=
  match series with
  | [] => Ok frames
  | s :: rest =>
      match series_frame s with
      | Raise e => Raise e
      | Ok f => frames_loop rest (frames ++ [f])
      end
  end.

Definition dquote : string := String (ascii_of_nat 34) EmptyString.

Definition cpu_filter : string :=
  String.append "metric.type="
    (String.append dquote
       (String.append "compute.googleapis.com/instance/cpu/utilization" dquote)).

Definition main (args : Args) : M unit :=
  let* _ := os.makedirs (out_dir args) true in
  let* client := monitoring_v3.new_client in
  let* env_project := os.environ_getitem "GOOGLE_CLOUD_PROJECT" in
  let project := monitoring_v3.common_project_path env_project in
  let* now := datetime.utcnow in
  let start := now - datetime.timedelta_minutes 60 in
  let* now_s := datetime.int_timestamp now in
  let* start_s := datetime.int_timestamp start in
  let interval := monitoring_v3.TimeInterval_of_seconds now_s start_s in
  let* env_project' := os.environ_getitem "GOOGLE_CLOUD_PROJECT" in
  let* series := fetch_metric client env_project' cpu_filter interval in
  let* frames := lift (frames_loop series []) in
  let* _ := plt_figure in
  let* _ := for_each frames
              (fun f => let* col := lift (pd.getitem "value" f) in Series_plot col) in
  let* _ := plt_title "CPU utilization" in
  let* _ := plt_xlabel "time" in
  let* _ := plt_ylabel "utilization" in
  plt_savefig (os.path_join (out_dir args) "cpu_util.png").

(** * Auxiliary definitions *)

(** The index label of a point's row. *)
Definition point_time (point : Point) : PyVal :=
  pd.to_datetime (end_time (interval point)).

(** The cells of the [value] column of a series' frame. *)
Definition value_cells (s : TimeSeries) : list PyVal :=
  pd.coerce_column (map point_value (points s)).

(** Some point of the series has a number for its row value. *)
Definition plottable (s : TimeSeries) : bool :=
  existsb pd.is_number (map point_value (points s)).

(** The exception the plot loop (lines 64-65) raises at a frame it cannot
    plot. *)
Definition plot_error (s : TimeSeries) : PyError :=
  if decide (display_key s = "value") then TypeError "no numeric data to plot"
  else KeyError "value".

(** The frame line 59 builds from a series that has points. *)
Definition frame_of (s : TimeSeries) : pd.DataFrame :=
  {| pd.index := pd.LabelIndex "time" (map point_time (points s));
     pd.columns := [(display_key s, value_cells s)] |}.

(** Neither numeric member of the oneof is the one set. *)
Definition valueless (v : TypedValue) : Prop :=
  match v with
  | DoubleValue _ | Int64Value _ => False
  | _ => True
  end.

(** The reading of C2: a valueless point leaves no row carrying its
    timestamp in the rows of its series. *)
Definition valueless_points_dropped : Prop :=
  ∀ (series : TimeSeries) (point : Point),
    point ∈ points series → valueless (value point) →
    ∀ row, row ∈ timeseries_rows series →
           pd.dict_get "time" row ≠ Some (point_time point).

(** The reading of C7 for the integer field: in the frame of its series,
    the value of such a point is a float. *)
Definition int_points_coerced : Prop :=
  ∀ (series : TimeSeries) (i : nat) (point : Point) (z : Z),
    points series !! i = Some point →
    value point = Int64Value z → z ≠ 0 →
    ∃ f : float, pd.cell (timeseries_to_df series) "value" i = Some (PyFloat f).

(** The reading of C3: the result has exactly one column per distinct
    display key (whether in one table or spread over the frames) and its
    index labels are the timestamps of the input points. *)
Definition one_column_per_key (series : list TimeSeries) : Prop :=
  ∃ frames : list pd.DataFrame,
    frames_loop series [] = Ok frames
    ∧ concat (map pd.column_names frames) ≡ₚ remove_dups (map display_key series)
    ∧ ∀ t, t ∈ concat (map pd.index_labels frames)
           ↔ ∃ s p, s ∈ series ∧ p ∈ points s ∧ point_time p = t.

(** A well-formed tree: the working directory is there, and whatever exists
    sits in a directory. *)
Definition fs_wf (f : gmap (list string) Node) : Prop :=
  f !! [] = Some Dir
  ∧ ∀ p n, f !! p = Some n → p ≠ [] → f !! os.parent p = Some Dir.

(** A checker for [fs_wf] on a concrete tree. *)
Definition is_dir_in (f : gmap (list string) Node) (p : Path) : bool :=
  match f !! p with Some Dir => true | _ => false end.

Definition fs_wf_b (f : gmap (list string) Node) : bool :=
  is_dir_in f []
  && forallb (λ pn : Path * Node,
                match pn.1 with
                | [] => true
                | _ :: _ => is_dir_in f (os.parent pn.1)
                end)
             (map_to_list f).

(** What a step changes: only the tree, and there it only adds
    directories. *)
Definition grows (w w' : World) : Prop :=
  ∃ f, w' = set_fs f w
       ∧ (∀ p n, fs w !! p = Some n → f !! p = Some n)
       ∧ (∀ p d, f !! p = Some (File d) → fs w !! p = Some (File d)).

(** Steps that keep a relation between the world before and after. *)
Definition preserves (R : World → World → Prop) {A} (c : M A) : Prop :=
  ∀ w, R w (c w).2.

(** No query is issued. *)
Definition same_requests (w w' : World) : Prop := requests w' = requests w.

(** No file is written, except a chart at [target]. *)
Definition writes_chart_only (target : Path) (w w' : World) : Prop :=
  ∀ p d, fs w' !! p = Some (File d) →
         fs w !! p = Some (File d) ∨ (p = target ∧ ∃ fig, d = PNG fig).

(** The query [main] sends (lines 43-53), as a function of the clock. *)
Definition main_request (w : World) (project : string) : ListTimeSeriesRequest :=
  {| req_name := String.append "projects/" project;
     req_filter := cpu_filter;
     req_interval :=
       {| start_time :=
            {| seconds :=
                 datetime.int_of_float
                   (datetime.timestamp (utcoffset w)
                      (clock w - datetime.timedelta_minutes 60));
               nanos := 0 |};
          end_time :=
            {| seconds :=
                 datetime.int_of_float
                   (datetime.timestamp (utcoffset w) (clock w));
               nanos := 0 |} |};
     req_view := FULL |}.

(** Lines 56-69 of [main], from the fetched series on. *)
Definition main_frames_and_plot (out : string) (series : list TimeSeries)
  : M unit :=
  let* frames := lift (frames_loop series []) in
  let* _ := plt_figure in
  let* _ := for_each frames
              (fun f => let* col := lift (pd.getitem "value" f) in Series_plot col) in
  let* _ := plt_title "CPU utilization" in
  let* _ := plt_xlabel "time" in
  let* _ := plt_ylabel "utilization" in
  plt_savefig (os.path_join out "cpu_util.png").

(** The line [Series.plot] draws for the frame of a series named [value]. *)
Definition series_line (s : TimeSeries) : plt.Line :=
  {| plt.line_label := "value";
     plt.xdata := map point_time (points s);
     plt.ydata := value_cells s |}.

(** The chart of a run that gets as far as [savefig]. *)
Definition chart_of (series : list TimeSeries) : plt.Figure :=
  {| plt.lines := map series_line series;
     plt.title := "CPU utilization";
     plt.xlabel := "time";
     plt.ylabel := "utilization" |}.

(** Where line 69 saves the chart. *)
Definition chart_path (out : string) : Path :=
  path_components (os.path_join out "cpu_util.png").

(** Nothing that exists is removed or changed, except at [target]. *)
Definition keeps_entries_except (target : Path) (w w' : World) : Prop :=
  ∀ p n, p ≠ target → fs w !! p = Some n → fs w' !! p = Some n.

(** ** Concrete inputs used by the examples *)

Module Examples.

Definition at_second (s : Z) : TimeInterval :=
  {| start_time := {| seconds := s; nanos := 0 |};
     end_time := {| seconds := s; nanos := 0 |} |}.

Definition point_at (s : Z) (v : TypedValue) : Point :=
  {| interval := at_second s; value := v |}.

Definition series_of (l : gmap string string) (ps : list Point) : TimeSeries :=
  {| metric := {| metric_type := "compute.googleapis.com/instance/cpu/utilization";
                  labels := l |};
     points := ps |}.

(** Two series that both lack the [instance_name] label. *)
Definition two_unlabelled : list TimeSeries :=
  [series_of ∅ [point_at 1 (DoubleValue 10)];
   series_of ∅ [point_at 2 (DoubleValue 20)]].

(** One series named [a] with one ordinary point. *)
Definition series_a : TimeSeries :=
  series_of {[ "instance_name" := "a" ]} [point_at 1 (DoubleValue 10)].

Definition world_with (f : gmap (list string) Node)
    (answer : Result (list TimeSeries)) : World :=
  {| fs := f;
     environ := {[ "GOOGLE_CLOUD_PROJECT" := "proj1" ]};
     clock := 1700000000 * 1000000 + 5;
     utcoffset := fun _ => 0;
     backend := fun _ => answer;
     requests := [];
     figures := [] |}.

Definition fresh_fs : gmap (list string) Node := {[ [] := Dir ]}.

(** A machine whose local time is UTC+05:30, at 1700000000 s after the
    epoch; the backend has no series. *)
Definition east_of_utc : World :=
  {| fs := fresh_fs;
     environ := {[ "GOOGLE_CLOUD_PROJECT" := "proj1" ]};
     clock := 1700000000 * 1000000;
     utcoffset := fun _ => 19800;
     backend := fun _ => Ok [];
     requests := [];
     figures := [] |}.

Definition args0 : Args :=
  {| out_dir := "results/metrics"; start := Some "2024-01-01"; end_ := None |}.

End Examples.

Module MakedirsExamples.

(** The output directory exists and holds a file from an earlier run. *)
Definition populated : gmap (list string) Node :=
  <[ ["results"; "metrics"; "cpu_util.png"] := File (Bytes "old") ]>
    (<[ ["results"; "metrics"] := Dir ]>
       (<[ ["results"] := Dir ]> Examples.fresh_fs)).

(** A regular file sits where the directory [results] should be. *)
Definition blocked : gmap (list string) Node :=
  <[ ["results"] := File (Bytes "not a directory") ]> Examples.fresh_fs.

End MakedirsExamples.

(** A run in which the backend answers one series, named [a]. *)
Definition named_series_run : Result unit * World :=
  main Examples.args0
    (Examples.world_with Examples.fresh_fs (Ok [Examples.series_a])).

(** * Properties *)

(** ** Rows and frames of one series *)

Section Rows.

Implicit Types (series : TimeSeries) (point : Point).

Lemma rows_loop_map (ps : list Point) (acc : list pd.Row) :
  fold_left (fun rows point => rows ++ [point_row point]) ps acc
  = acc ++ map point_row ps.
Proof.
  revert acc. induction ps as [|p ps IH]; intros acc; simpl.
  - by rewrite app_nil_r.
  - rewrite IH, <- app_assoc. reflexivity.
Qed.

Lemma timeseries_rows_map series :
  timeseries_rows series = map point_row (points series).
Proof. unfold timeseries_rows. by rewrite rows_loop_map. Qed.

Lemma row_keys (ps : list Point) :
  ps ≠ [] →
  remove_dups (concat (map (map fst) (map point_row ps))) = ["time"; "value"].
Proof.
  induction ps as [|p ps IH]; [done|]. intros _.
  destruct ps as [|p' ps].
  - reflexivity.
  - specialize (IH ltac:(done)).
    change (concat (map (map fst) (map point_row (p :: p' :: ps))))
      with ("time" :: "value"
              :: concat (map (map fst) (map point_row (p' :: ps)))).
    set (l := concat (map (map fst) (map point_row (p' :: ps)))) in *.
    assert (Hl : ∃ l', l = "time" :: "value" :: l') by (eexists; reflexivity).
    destruct Hl as [l' Hl].
    cbn [remove_dups].
    destruct (decide_rel elem_of "time" ("value" :: l)) as [_|Hn];
      [|exfalso; apply Hn; rewrite Hl; set_solver].
    destruct (decide_rel elem_of "value" l) as [_|Hn];
      [|exfalso; apply Hn; rewrite Hl; set_solver].
    exact IH.
Qed.

(** A column of timestamps keeps its cells. *)
Lemma coerce_times (ps : list Point) :
  pd.coerce_column (map point_time ps) = map point_time ps.
Proof.
  unfold pd.coerce_column.
  destruct (forallb pd.is_int (map point_time ps)); [done|].
  assert (H : existsb pd.is_number (map point_time ps) = false)
    by (induction ps; simpl; auto).
  by rewrite H.
Qed.

Lemma timeseries_to_df_nonempty series :
  points series ≠ [] →
  timeseries_to_df series
  = {| pd.index := pd.RangeIndex (length (points series));
       pd.columns := [("time", map point_time (points series));
                      ("value", value_cells series)] |}.
Proof.
  intros Hne. unfold timeseries_to_df, pd.DataFrame_of_rows.
  rewrite timeseries_rows_map, row_keys by done.
  rewrite length_map. simpl. rewrite !map_map.
  change (map (λ x : Point,
                 default (PyFloat pd.nan) (pd.dict_get "time" (point_row x)))
              (points series))
    with (map point_time (points series)).
  by rewrite coerce_times.
Qed.

Lemma series_frame_nonempty series :
  points series ≠ [] →
  series_frame series
  = Ok {| pd.index := pd.LabelIndex "time" (map point_time (points series));
          pd.columns := [(display_key series, value_cells series)] |}.
Proof.
  intros Hne. unfold series_frame.
  rewrite timeseries_to_df_nonempty by done. reflexivity.
Qed.

Lemma series_frame_empty series :
  points series = [] → series_frame series = Raise (KeyError "time").
Proof.
  intros He. unfold series_frame, timeseries_to_df.
  rewrite timeseries_rows_map, He. reflexivity.
Qed.

End Rows.


(** ** Point values (lines 12-16) *)

(** C1.  A point whose populated field holds zero (a double [0.0] or [-0.0],
    or an int64 [0]) does not give a present zero: the truth tests of lines
    13 and 15 both fail and the row's value stays [None]. *)
Theorem zero_point_value_is_None :
  ∀ t : TimeInterval,
    point_value {| interval := t; value := DoubleValue 0 |} = PyNone
    ∧ point_value {| interval := t; value := DoubleValue (-0) |} = PyNone
    ∧ point_value {| interval := t; value := Int64Value 0 |} = PyNone
    ∧ timeseries_rows (Examples.series_of ∅ [Examples.point_at 7 (DoubleValue 0)])
      = [[("time", PyTime {| seconds := 7; nanos := 0 |}); ("value", PyNone)]].
Proof. intros t. repeat split; reflexivity. Qed.

(** C2 fails as stated: a series of one valueless point still has a row
    with that point's timestamp. *)
Lemma C2_valueless_point_kept : ¬ valueless_points_dropped.
Proof.
  intros H.
  pose (p := Examples.point_at 3 NoValue).
  apply (H (Examples.series_of ∅ [p]) p
           ltac:(simpl; set_solver) I
           [("time", point_time p); ("value", PyNone)]).
  - rewrite timeseries_rows_map. simpl. set_solver.
  - reflexivity.
Qed.

(** C2, amended.  Every point gives exactly one row, in order; a point in
    which neither numeric field carries a value gives the row with its
    timestamp and the value [None]. *)
Theorem valueless_point_row (series : TimeSeries) (point : Point) :
  point ∈ points series →
  valueless (value point) →
  timeseries_rows series = map point_row (points series)
  ∧ length (timeseries_rows series) = length (points series)
  ∧ point_row point = [("time", point_time point); ("value", PyNone)]
  ∧ point_row point ∈ timeseries_rows series.
Proof.
  intros Hin Hv. rewrite timeseries_rows_map, length_map.
  repeat split.
  - unfold point_row, point_value, point_time.
    destruct (value point); simpl in Hv; try done.
  - by apply list_elem_of_fmap_2.
Qed.

Lemma valueless_point_row_witness :
  let p := Examples.point_at 3 NoValue in
  let s := Examples.series_of ∅ [Examples.point_at 1 (DoubleValue 10); p] in
  point_row p ∈ timeseries_rows s
  ∧ length (timeseries_rows s) = 2%nat.
Proof.
  intros p s.
  destruct (valueless_point_row s p) as (_ & Hlen & _ & Hin).
  - simpl. set_solver.
  - exact I.
  - split; [exact Hin | exact Hlen].
Defined.

(** C7 fails as stated: in the frame of a series whose one point has the
    int64 value 5, the cell is the integer 5, in an integer column. *)
Lemma C7_int_not_coerced : ¬ int_points_coerced.
Proof.
  intros H.
  destruct (H (Examples.series_of ∅ [Examples.point_at 1 (Int64Value 5)])
              0%nat (Examples.point_at 1 (Int64Value 5)) 5
              eq_refl eq_refl ltac:(done))
    as [f Hf].
  vm_compute in Hf. discriminate Hf.
Qed.

Lemma value_cell (series : TimeSeries) (i : nat) (point : Point) :
  points series !! i = Some point →
  pd.cell (timeseries_to_df series) "value" i = value_cells series !! i
  ∧ map point_value (points series) !! i = Some (point_value point).
Proof.
  intros Hi. split.
  - rewrite timeseries_to_df_nonempty by (intros He; by rewrite He in Hi).
    reflexivity.
  - by rewrite list_lookup_fmap, Hi.
Qed.

Lemma coerce_number (cells : list PyVal) (i : nat) (v : PyVal) :
  cells !! i = Some v →
  pd.is_number v = true →
  forallb pd.is_number_or_None cells = true →
  pd.coerce_column cells !! i
  = Some (if forallb pd.is_int cells then v else pd.to_float v).
Proof.
  intros Hi Hv Hall. unfold pd.coerce_column.
  destruct (forallb pd.is_int cells); [done|].
  assert (Hex : existsb pd.is_number cells = true).
  { apply existsb_exists. exists v. split; [|done].
    apply list_elem_of_In. by apply list_elem_of_lookup_2 with i. }
  rewrite Hex, Hall. simpl. by rewrite list_lookup_fmap, Hi.
Qed.

Lemma row_values_number_or_None (series : TimeSeries) :
  forallb pd.is_number_or_None (map point_value (points series)) = true.
Proof.
  apply forallb_forall. intros v Hv. apply in_map_iff in Hv as (p & <- & _).
  unfold point_value.
  destruct (float_truthy _); [done|]. by destruct (int_truthy _).
Qed.

(** C7, amended.  A point with only the double field set to a value that
    does not compare equal to zero: its row and its cell in the frame carry
    exactly that double.  A point with only the int64 field set to a
    non-zero integer: its row carries that integer; its cell in the frame is
    that same integer when every row value of the series is an integer, and
    the integer coerced to floating point otherwise, that is when another
    point of the series gives a float or a missing value. *)
Theorem populated_point_value (series : TimeSeries) (i : nat) (point : Point) :
  points series !! i = Some point →
  (∀ d : float,
     value point = DoubleValue d → float_truthy d = true →
     point_row point = [("time", point_time point); ("value", PyFloat d)]
     ∧ pd.cell (timeseries_to_df series) "value" i = Some (PyFloat d))
  ∧ (∀ z : Z,
       value point = Int64Value z → z ≠ 0 →
       point_row point = [("time", point_time point); ("value", PyInt z)]
       ∧ pd.cell (timeseries_to_df series) "value" i
         = Some (if forallb pd.is_int (map point_value (points series))
                 then PyInt z
                 else PyFloat (pd.int64_to_float z))).
Proof.
  intros Hi. destruct (value_cell series i point Hi) as [Hcell Hrow].
  pose proof (row_values_number_or_None series) as Hall.
  split.
  - intros d Hv Hd.
    assert (Hpv : point_value point = PyFloat d)
      by (unfold point_value; rewrite Hv; simpl; by rewrite Hd).
    split; [unfold point_row, point_time; by rewrite Hpv|].
    rewrite Hcell. unfold value_cells. rewrite Hpv in Hrow.
    rewrite (coerce_number _ i (PyFloat d)) by done.
    destruct (forallb pd.is_int _) eqn:Hint; [|done].
    rewrite forallb_forall in Hint.
    assert (Hin : In (PyFloat d) (map point_value (points series)))
      by (apply list_elem_of_In; by apply list_elem_of_lookup_2 with i).
    by specialize (Hint _ Hin).
  - intros z Hv Hz.
    assert (Hpv : point_value point = PyInt z).
    { unfold point_value. rewrite Hv. simpl.
      change (float_truthy 0) with false. cbv iota.
      unfold int_truthy. by destruct (Z.eqb_spec z 0). }
    split; [unfold point_row, point_time; by rewrite Hpv|].
    rewrite Hcell. unfold value_cells. rewrite Hpv in Hrow.
    by rewrite (coerce_number _ i (PyInt z)).
Qed.

Lemma populated_point_value_witness :
  let ints := Examples.series_of ∅ [Examples.point_at 1 (Int64Value 5)] in
  let mixed := Examples.series_of ∅ [Examples.point_at 1 (Int64Value 5);
                                     Examples.point_at 2 (Int64Value 0);
                                     Examples.point_at 3 (DoubleValue 10)] in
  pd.cell (timeseries_to_df ints) "value" 0 = Some (PyInt 5)
  ∧ pd.cell (timeseries_to_df mixed) "value" 0 = Some (PyFloat 5)
  ∧ pd.cell (timeseries_to_df mixed) "value" 2 = Some (PyFloat 10).
Proof.
  intros ints mixed. split; [|split].
  - destruct (populated_point_value ints 0 (Examples.point_at 1 (Int64Value 5))
                eq_refl) as [_ Hint].
    destruct (Hint 5 eq_refl ltac:(done)) as [_ Hcell]. exact Hcell.
  - destruct (populated_point_value mixed 0 (Examples.point_at 1 (Int64Value 5))
                eq_refl) as [_ Hint].
    destruct (Hint 5 eq_refl ltac:(done)) as [_ Hcell]. exact Hcell.
  - destruct (populated_point_value mixed 2 (Examples.point_at 3 (DoubleValue 10))
                eq_refl) as [Hfloat _].
    destruct (Hfloat 10%float eq_refl eq_refl) as [_ Hcell]. exact Hcell.
Defined.

(** ** Frames (lines 56-59) *)

Lemma frames_loop_ok (series : list TimeSeries) (acc : list pd.DataFrame) :
  Forall (λ s, points s ≠ []) series →
  frames_loop series acc = Ok (acc ++ map frame_of series).
Proof.
  intros Hall. revert acc.
  induction Hall as [|s series Hs _ IH]; intros acc; simpl.
  - by rewrite app_nil_r.
  - rewrite series_frame_nonempty by done.
    rewrite IH, <- app_assoc. reflexivity.
Qed.

(** C9.  The column of a series is headed by its [instance_name] label, and
    by the literal [instance] when the series has no such label. *)
Theorem column_header_of_series (series : TimeSeries) :
  points series ≠ [] →
  ∃ f : pd.DataFrame,
    series_frame series = Ok f
    ∧ frames_loop [series] [] = Ok [f]
    ∧ (labels (metric series) !! "instance_name" = None →
       pd.column_names f = ["instance"])
    ∧ (∀ v, labels (metric series) !! "instance_name" = Some v →
            pd.column_names f = [v]).
Proof.
  intros Hne. exists (frame_of series). repeat split.
  - by apply series_frame_nonempty.
  - rewrite frames_loop_ok by (by constructor). reflexivity.
  - intros Hl.
    change (pd.column_names (frame_of series)) with [display_key series].
    unfold display_key. by rewrite Hl.
  - intros v Hl.
    change (pd.column_names (frame_of series)) with [display_key series].
    unfold display_key. by rewrite Hl.
Qed.

Lemma column_header_of_series_witness :
  (∃ f, series_frame (Examples.series_of ∅ [Examples.point_at 1 (Int64Value 5)])
        = Ok f ∧ pd.column_names f = ["instance"])
  ∧ (∃ f, series_frame Examples.series_a = Ok f ∧ pd.column_names f = ["a"]).
Proof.
  split.
  - destruct (column_header_of_series
                (Examples.series_of ∅ [Examples.point_at 1 (Int64Value 5)]))
      as (f & Hf & _ & Hnone & _); [done|].
    exists f. split; [exact Hf | apply Hnone; reflexivity].
  - destruct (column_header_of_series Examples.series_a)
      as (f & Hf & _ & _ & Hsome); [done|].
    exists f. split; [exact Hf | apply Hsome; reflexivity].
Defined.

(** C3 fails as stated: two series without the label give two frames, each
    with a column [instance], for the one distinct key. *)
Lemma C3_duplicate_key_columns : ¬ one_column_per_key Examples.two_unlabelled.
Proof.
  intros (frames & Hf & Hcols & _).
  assert (Hrun : frames_loop Examples.two_unlabelled []
                 = Ok (map frame_of Examples.two_unlabelled))
    by (rewrite frames_loop_ok; [done | repeat constructor; done]).
  rewrite Hrun in Hf. injection Hf as <-.
  apply Permutation_length in Hcols. discriminate Hcols.
Qed.

(** C3, amended.  When every series has at least one point, the loop yields
    one frame per series, in the order of the series, and never merges them
    into one table: each frame has the single column headed by its series'
    display key and is indexed by exactly the timestamps of that series'
    points, in order.  Over all frames the index labels are the timestamps of
    the input points, none added and none lost. *)
Theorem frames_of_series (series : list TimeSeries) :
  Forall (λ s, points s ≠ []) series →
  ∃ frames : list pd.DataFrame,
    frames_loop series [] = Ok frames
    ∧ length frames = length series
    ∧ Forall2 (λ s f, pd.column_names f = [display_key s]
                      ∧ pd.index_labels f = map point_time (points s))
              series frames
    ∧ ∀ t, t ∈ concat (map pd.index_labels frames)
           ↔ ∃ s p, s ∈ series ∧ p ∈ points s ∧ point_time p = t.
Proof.
  intros Hall. exists (map frame_of series).
  split; [by rewrite frames_loop_ok|].
  split; [by rewrite length_map|].
  split.
  - clear Hall. induction series as [|s series IH]; constructor; auto.
  - intros t. rewrite list_elem_of_In, in_concat. split.
    + intros (l & Hl & Ht).
      apply in_map_iff in Hl as (f & <- & Hf).
      apply in_map_iff in Hf as (s & <- & Hs).
      simpl in Ht. apply in_map_iff in Ht as (p & Hp & Hin).
      exists s, p. split; [by apply list_elem_of_In|].
      split; [by apply list_elem_of_In | done].
    + intros (s & p & Hs & Hp & Ht).
      apply list_elem_of_In in Hs. apply list_elem_of_In in Hp.
      exists (map point_time (points s)). split.
      * apply in_map_iff. exists (frame_of s). split; [done|].
        by apply in_map.
      * rewrite <- Ht. by apply in_map.
Qed.

Lemma frames_of_series_witness :
  ∃ frames, frames_loop Examples.two_unlabelled [] = Ok frames
            ∧ length frames = 2%nat.
Proof.
  destruct (frames_of_series Examples.two_unlabelled)
    as (frames & Hf & Hlen & _).
  - repeat constructor; done.
  - exists frames. split; [exact Hf | exact Hlen].
Defined.

(** ** The query (lines 20-29) *)

(** C6.  [fetch_metric] issues exactly one query, named [projects/P], with
    the given filter and interval and the FULL view, and returns what the
    backend answers to it, as it is. *)
Theorem fetch_metric_one_query
    (client : monitoring_v3.MetricServiceClient)
    (project filter_ : string) (interval : TimeInterval) (w : World) :
  fetch_metric client project filter_ interval w
  = (backend w {| req_name := String.append "projects/" project;
                  req_filter := filter_;
                  req_interval := interval;
                  req_view := FULL |},
     set_requests
       (requests w ++ [{| req_name := String.append "projects/" project;
                          req_filter := filter_;
                          req_interval := interval;
                          req_view := FULL |}]) w).
Proof.
  unfold fetch_metric, bind, monitoring_v3.list_time_series, ret.
  by destruct (backend w _).
Qed.

(** The same with a backend that fails: the error comes back as it is, and
    the query still counts. *)
Example fetch_metric_backend_error :
  let w := Examples.world_with Examples.fresh_fs (Raise (BackendError "denied")) in
  (fetch_metric monitoring_v3.Client "proj1" "F" (Examples.at_second 0) w).1
  = Raise (BackendError "denied")
  ∧ length (requests
              (fetch_metric monitoring_v3.Client "proj1" "F"
                 (Examples.at_second 0) w).2) = 1%nat.
Proof. split; reflexivity. Qed.

(** ** Directory setup (line 37) *)

Section Makedirs.

Lemma set_fs_same (w : World) : set_fs (fs w) w = w.
Proof. by destruct w. Qed.

Lemma parent_snoc (p : Path) (c : string) : os.parent (p ++ [c]) = p.
Proof. unfold os.parent. apply removelast_last. Qed.

Lemma parent_prefix (p : Path) : os.parent p `prefix_of` p.
Proof.
  destruct (decide (p = [])) as [->|Hne]; [done|].
  destruct (exists_last Hne) as (q & c & ->).
  rewrite parent_snoc. by exists [c].
Qed.

Lemma parent_ne (p : Path) : p ≠ [] → os.parent p ≠ p.
Proof.
  intros Hne. destruct (exists_last Hne) as (q & c & ->).
  rewrite parent_snoc. intros H. apply (f_equal length) in H.
  rewrite length_app in H. simpl in H. lia.
Qed.

Lemma grows_refl (w : World) : grows w w.
Proof. exists (fs w). by rewrite set_fs_same. Qed.

Lemma grows_trans (w1 w2 w3 : World) : grows w1 w2 → grows w2 w3 → grows w1 w3.
Proof.
  intros (f & -> & Hf1 & Hf2) (g & -> & Hg1 & Hg2).
  exists g. simpl in *. split; [done|]. split; eauto.
Qed.

Lemma mkdir_grows (p : Path) (w : World) : grows w (os.mkdir p w).2.
Proof.
  unfold os.mkdir. destruct (fs w !! p) eqn:Hp; [apply grows_refl|].
  destruct (fs w !! os.parent p) as [[|d]|]; try apply grows_refl.
  exists (<[p := Dir]> (fs w)). split; [done|]. split.
  - intros q n Hq. rewrite lookup_insert_ne; [done|].
    intros ->. rewrite Hp in Hq. discriminate Hq.
  - intros q d Hq. destruct (decide (p = q)) as [->|Hne].
    + by rewrite lookup_insert_eq in Hq.
    + by rewrite lookup_insert_ne in Hq.
Qed.

Lemma try_mkdir_grows (p : Path) (b : bool) (w : World) :
  grows w (os.try_mkdir p b w).2.
Proof.
  unfold os.try_mkdir. pose proof (mkdir_grows p w) as H.
  destruct (os.mkdir p w) as [[[]|e] w']; simpl in *; [done|].
  by destruct (negb b || negb (os.isdir p w')).
Qed.

Lemma swallow_snd (r : Result unit * World) :
  (os.swallow_FileExistsError r).2 = r.2.
Proof. by destruct r as [[[]|[]] w]. Qed.

Lemma makedirs_rev_step (tail t2 : string) (rh2 : list string) (b : bool)
    (w : World) :
  os.makedirs_rev (tail :: t2 :: rh2) b w
  = match (if os.exists_ (rev (t2 :: rh2)) w then (Ok tt, w)
           else os.swallow_FileExistsError (os.makedirs_rev (t2 :: rh2) b w))
    with
    | (Raise e, w1) => (Raise e, w1)
    | (Ok _, w1) => os.try_mkdir (rev (tail :: t2 :: rh2)) b w1
    end.
Proof. reflexivity. Qed.

Lemma makedirs_rev_grows (rname : list string) (b : bool) (w : World) :
  grows w (os.makedirs_rev rname b w).2.
Proof.
  revert w. induction rname as [|tail rhead IH]; intros w.
  - apply try_mkdir_grows.
  - destruct rhead as [|t2 rh2]; [apply try_mkdir_grows|].
    rewrite makedirs_rev_step.
    destruct (os.exists_ (rev (t2 :: rh2)) w); [apply try_mkdir_grows|].
    specialize (IH w). rewrite <- swallow_snd in IH.
    destruct (os.swallow_FileExistsError _) as [[[]|e] w1]; [|done].
    eapply grows_trans; [exact IH | apply try_mkdir_grows].
Qed.

Lemma mkdir_wf (p : Path) (w : World) :
  fs_wf (fs w) → fs_wf (fs (os.mkdir p w).2).
Proof.
  intros [Hroot Hwf]. unfold os.mkdir.
  destruct (fs w !! p) eqn:Hp; [done|].
  destruct (fs w !! os.parent p) as [[|d]|] eqn:Hpar; try done.
  assert (Hne : p ≠ []) by (intros ->; rewrite Hroot in Hp; discriminate Hp).
  split; simpl.
  - by rewrite lookup_insert_ne.
  - intros q n Hq Hqne. destruct (decide (p = q)) as [<-|Hpq].
    + rewrite lookup_insert_ne by (apply not_eq_sym, parent_ne; done). done.
    + rewrite lookup_insert_ne in Hq by done.
      specialize (Hwf q n Hq Hqne).
      rewrite lookup_insert_ne; [done|]. intros ->.
      rewrite Hp in Hwf. discriminate Hwf.
Qed.

(** The three ways [try_mkdir] can fail when [exist_ok] is set. *)
Lemma try_mkdir_spec (p : Path) (w : World) (r : Result unit) (w' : World) :
  os.try_mkdir p true w = (r, w') →
  (r = Ok tt → fs w' !! p = Some Dir)
  ∧ (∀ e, r = Raise e →
          (∃ d, fs w !! p = Some (File d))
          ∨ (∃ d, fs w !! os.parent p = Some (File d))
          ∨ fs w !! os.parent p = None).
Proof.
  unfold os.try_mkdir, os.mkdir, os.isdir.
  destruct (fs w !! p) as [[|d]|] eqn:Hp; simpl.
  - rewrite Hp. simpl. intros [= <- <-]. by split.
  - rewrite Hp. simpl. intros [= <- <-]. split; [done|]. eauto.
  - destruct (fs w !! os.parent p) as [[|d]|] eqn:Hpar; simpl.
    + intros [= <- <-]. split; [|done]. intros _. simpl.
      by rewrite lookup_insert_eq.
    + rewrite Hp. simpl. intros [= <- <-]. split; [done|]. eauto.
    + rewrite Hp. simpl. intros [= <- <-]. split; [done|]. eauto.
Qed.

Lemma try_mkdir_wf (p : Path) (b : bool) (w : World) :
  fs_wf (fs w) → fs_wf (fs (os.try_mkdir p b w).2).
Proof.
  intros Hwf. unfold os.try_mkdir. pose proof (mkdir_wf p w Hwf) as H.
  destruct (os.mkdir p w) as [[[]|e] w']; simpl in *; [done|].
  by destruct (negb b || negb (os.isdir p w')).
Qed.

Lemma makedirs_rev_wf (rname : list string) (b : bool) (w : World) :
  fs_wf (fs w) → fs_wf (fs (os.makedirs_rev rname b w).2).
Proof.
  revert w. induction rname as [|tail rhead IH]; intros w Hwf.
  - by apply try_mkdir_wf.
  - destruct rhead as [|t2 rh2]; [by apply try_mkdir_wf|].
    rewrite makedirs_rev_step.
    destruct (os.exists_ (rev (t2 :: rh2)) w); [by apply try_mkdir_wf|].
    specialize (IH w Hwf). rewrite <- swallow_snd in IH.
    destruct (os.swallow_FileExistsError _) as [[[]|e] w1]; [|done].
    by apply try_mkdir_wf.
Qed.

(** A directory that is already there: nothing is created and nothing
    is raised. *)
Lemma makedirs_rev_existing (rname : list string) (w : World) :
  fs_wf (fs w) → fs w !! rev rname = Some Dir →
  os.makedirs_rev rname true w = (Ok tt, w).
Proof.
  intros [Hroot Hwf] Hdir.
  assert (Htry : os.try_mkdir (rev rname) true w = (Ok tt, w)).
  { unfold os.try_mkdir, os.mkdir, os.isdir. rewrite Hdir. simpl.
    by rewrite Hdir. }
  destruct rname as [|tail [|t2 rh2]]; try exact Htry.
  rewrite makedirs_rev_step. unfold os.exists_.
  assert (Hpar : fs w !! rev (t2 :: rh2) = Some Dir).
  { rewrite <- (parent_snoc (rev (t2 :: rh2)) tail).
    apply (Hwf _ Dir); [exact Hdir|].
    simpl. by destruct (rev rh2 ++ [t2]). }
  rewrite Hpar. exact Htry.
Qed.

(** An exception out of [makedirs] with [exist_ok] set means that a
    regular file sits on the path. *)
Lemma makedirs_rev_spec (rname : list string) :
  ∀ (w : World) (r : Result unit) (w' : World),
    fs_wf (fs w) →
    os.makedirs_rev rname true w = (r, w') →
    (r = Ok tt → fs w' !! rev rname = Some Dir)
    ∧ (∀ e, r = Raise e →
            ∃ q d, q `prefix_of` rev rname ∧ fs w !! q = Some (File d)).
Proof.
  induction rname as [|tail rhead IH]; intros w r w' Hwf Hrun.
  - apply try_mkdir_spec in Hrun as [Hok Herr]. split; [done|].
    intros e He. destruct Hwf as [Hroot _].
    destruct (Herr e He) as [[d Hd]|[[d Hd]|Hn]];
      simpl in *; rewrite Hroot in *; discriminate.
  - destruct rhead as [|t2 rh2].
    + apply try_mkdir_spec in Hrun as [Hok Herr]. split; [done|].
      intros e He. destruct Hwf as [Hroot _].
      destruct (Herr e He) as [[d Hd]|[[d Hd]|Hn]].
      * exists (rev [tail]), d. by split.
      * simpl in Hd. rewrite Hroot in Hd. discriminate Hd.
      * simpl in Hn. rewrite Hroot in Hn. discriminate Hn.
    + rewrite makedirs_rev_step in Hrun.
      set (head := rev (t2 :: rh2)) in *.
      assert (Hname : rev (tail :: t2 :: rh2) = head ++ [tail]) by done.
      rewrite Hname in *.
      destruct (os.exists_ head w) eqn:Hex.
      * apply try_mkdir_spec in Hrun as [Hok Herr]. split; [done|].
        intros e He. rewrite parent_snoc in Herr.
        destruct (Herr e He) as [[d Hd]|[[d Hd]|Hn]].
        -- exists (head ++ [tail]), d. by split.
        -- exists head, d. split; [by exists [tail] | done].
        -- unfold os.exists_ in Hex. rewrite Hn in Hex. discriminate Hex.
      * destruct (os.makedirs_rev (t2 :: rh2) true w) as [r1 w1] eqn:Hrec.
        destruct (IH w r1 w1 Hwf Hrec) as [IHok IHerr].
        pose proof (makedirs_rev_grows (t2 :: rh2) true w) as Hg.
        rewrite Hrec in Hg. destruct Hg as (f & Hw1 & Hfwd & Hback).
        simpl in Hw1. subst w1.
        assert (Hpre : ∀ q, q `prefix_of` head → q `prefix_of` head ++ [tail]).
        { intros q Hq. by apply prefix_app_r. }
        destruct r1 as [[]|e1].
        -- simpl in Hrun.
           apply try_mkdir_spec in Hrun as [Hok Herr]. split; [done|].
           intros e He. rewrite parent_snoc in Herr. simpl in Herr.
           specialize (IHok eq_refl). simpl in IHok. fold head in IHok.
           destruct (Herr e He) as [[d Hd]|[[d Hd]|Hn]].
           ++ exists (head ++ [tail]), d. split; [done | by apply Hback].
           ++ rewrite IHok in Hd. discriminate Hd.
           ++ rewrite IHok in Hn. discriminate Hn.
        -- destruct (IHerr e1 eq_refl) as (q & d & Hq & Hd).
           fold head in Hq.
           assert (Hany : ∀ e, r = Raise e →
                    ∃ q d, q `prefix_of` head ++ [tail]
                           ∧ fs w !! q = Some (File d))
             by (intros; exists q, d; auto).
           destruct e1; simpl in Hrun;
             try (injection Hrun as <- <-; split; [done | exact Hany]).
           apply try_mkdir_spec in Hrun as [Hok _]. by split.
Qed.

End Makedirs.

Lemma fs_wf_b_sound (f : gmap (list string) Node) : fs_wf_b f = true → fs_wf f.
Proof.
  unfold fs_wf_b, is_dir_in. intros [Hroot Hall]%andb_prop. split.
  - by destruct (f !! []) as [[|?]|].
  - intros p n Hp Hne.
    rewrite forallb_forall in Hall.
    specialize (Hall (p, n)). simpl in Hall.
    destruct p as [|c p]; [done|].
    assert (Hin : In (c :: p, n) (map_to_list f))
      by (apply list_elem_of_In; by apply elem_of_map_to_list).
    specialize (Hall Hin).
    by destruct (f !! os.parent (c :: p)) as [[|?]|].
Qed.

(** C10.  When the output directory is already a directory, directory setup
    raises nothing and leaves the tree as it was; in every case all that
    exists stays in place; and an exception from it means that the path
    cannot be made a directory: it is empty, or a regular file sits on it. *)
Theorem makedirs_existing_directory (args : Args) (w : World) :
  fs_wf (fs w) →
  (out_dir args ≠ EmptyString →
   fs w !! path_components (out_dir args) = Some Dir →
   os.makedirs (out_dir args) true w = (Ok tt, w))
  ∧ (∀ p n, fs w !! p = Some n →
            fs (os.makedirs (out_dir args) true w).2 !! p = Some n)
  ∧ (∀ e w', os.makedirs (out_dir args) true w = (Raise e, w') →
             out_dir args = EmptyString
             ∨ ∃ q d, q `prefix_of` path_components (out_dir args)
                      ∧ fs w !! q = Some (File d)).
Proof.
  intros Hwf. unfold os.makedirs.
  destruct (decide (out_dir args = EmptyString)) as [He|Hne].
  { repeat split; [done | by intros p n Hp | by left]. }
  repeat split.
  - intros _ Hdir. apply makedirs_rev_existing; [done|].
    by rewrite rev_involutive.
  - intros p n Hp.
    destruct (makedirs_rev_grows (rev (path_components (out_dir args))) true w)
      as (f & -> & Hfwd & _).
    by apply Hfwd.
  - intros e w' Hrun. right.
    destruct (makedirs_rev_spec _ _ _ _ Hwf Hrun) as [_ Herr].
    rewrite rev_involutive in Herr. by apply (Herr e).
Qed.

Lemma makedirs_existing_directory_witness :
  let w := Examples.world_with MakedirsExamples.populated (Ok []) in
  os.makedirs "results/metrics" true w = (Ok tt, w)
  ∧ fs (os.makedirs "results/metrics" true w).2
       !! ["results"; "metrics"; "cpu_util.png"] = Some (File (Bytes "old")).
Proof.
  intros w.
  destruct (makedirs_existing_directory Examples.args0 w) as (Hok & Hkeep & _).
  - apply fs_wf_b_sound. vm_compute. reflexivity.
  - split.
    + apply Hok; [done | vm_compute; reflexivity].
    + apply Hkeep. vm_compute. reflexivity.
Defined.

Example makedirs_blocked :
  (os.makedirs "results/metrics" true
     (Examples.world_with MakedirsExamples.blocked (Ok []))).1
  = Raise (NotADirectoryError ["results"; "metrics"]).
Proof. vm_compute. reflexivity. Qed.

(** ** Running [main] *)

Lemma bind_ok {A B} (c : M A) (k : A → M B) (w w' : World) (a : A) :
  c w = (Ok a, w') → bind c k w = k a w'.
Proof. intros H. unfold bind. by rewrite H. Qed.

Lemma bind_raise {A B} (c : M A) (k : A → M B) (w w' : World) (e : PyError) :
  c w = (Raise e, w') → bind c k w = (Raise e, w').
Proof. intros H. unfold bind. by rewrite H. Qed.

(** How [preserves] composes. *)
Section Preserves.

Variable R : World → World → Prop.
Hypothesis R_refl : ∀ w, R w w.
Hypothesis R_trans : ∀ w1 w2 w3, R w1 w2 → R w2 w3 → R w1 w3.


Lemma preserves_ret {A} (a : A) : preserves R (ret a).
Proof. intros w. apply R_refl. Qed.

Lemma preserves_lift {A} (r : Result A) : preserves R (lift r).
Proof. intros w. apply R_refl. Qed.

Lemma preserves_bind {A B} (c : M A) (k : A → M B) :
  preserves R c → (∀ a, preserves R (k a)) → preserves R (bind c k).
Proof.
  intros Hc Hk w. unfold bind. specialize (Hc w).
  destruct (c w) as [[a|e] w1]; simpl in *; [|done].
  eapply R_trans; [exact Hc | apply Hk].
Qed.

Lemma preserves_for_each {A} (xs : list A) (body : A → M unit) :
  (∀ x, preserves R (body x)) → preserves R (for_each xs body).
Proof.
  intros Hb. induction xs as [|x xs IH]; simpl.
  - apply preserves_ret.
  - apply preserves_bind; auto.
Qed.

End Preserves.

Lemma writes_chart_only_refl (target : Path) (w : World) :
  writes_chart_only target w w.
Proof. intros p d Hp. by left. Qed.

Lemma writes_chart_only_trans (target : Path) (w1 w2 w3 : World) :
  writes_chart_only target w1 w2 → writes_chart_only target w2 w3 →
  writes_chart_only target w1 w3.
Proof.
  intros H12 H23 p d Hp. destruct (H23 p d Hp) as [H2|Ht]; [|by right].
  by apply H12.
Qed.

Lemma same_requests_trans (w1 w2 w3 : World) :
  same_requests w1 w2 → same_requests w2 w3 → same_requests w1 w3.
Proof. unfold same_requests. congruence. Qed.

Lemma on_gcf_same_requests (f : plt.Figure → plt.Figure) :
  preserves same_requests (on_gcf f).
Proof. by intros w. Qed.

Lemma on_gcf_writes_nothing (target : Path) (f : plt.Figure → plt.Figure) :
  preserves (writes_chart_only target) (on_gcf f).
Proof. intros w p d Hp. by left. Qed.

Lemma Series_plot_same_requests (s : pd.Series) :
  preserves same_requests (Series_plot s).
Proof. intros w. unfold Series_plot. by destruct (negb _). Qed.

Lemma Series_plot_writes_nothing (target : Path) (s : pd.Series) :
  preserves (writes_chart_only target) (Series_plot s).
Proof. intros w p d Hp. left. unfold Series_plot in Hp. by destruct (negb _). Qed.

Lemma savefig_same_requests (path : string) :
  preserves same_requests (plt_savefig path).
Proof.
  intros w. unfold plt_savefig.
  destruct (fs w !! os.parent (path_components path)) as [[|?]|]; try done.
  by destruct (fs w !! path_components path) as [[|?]|].
Qed.

Lemma savefig_writes_chart (path : string) :
  preserves (writes_chart_only (path_components path)) (plt_savefig path).
Proof.
  intros w p d. unfold plt_savefig.
  destruct (fs w !! os.parent (path_components path)) as [[|?]|];
    try (by left).
  destruct (fs w !! path_components path) as [[|?]|]; try (by left);
    simpl; intros Hp;
    (destruct (decide (path_components path = p)) as [<-|Hne];
     [rewrite lookup_insert_eq in Hp; injection Hp as <-; right; eauto
     |rewrite lookup_insert_ne in Hp by done; by left]).
Qed.

Lemma makedirs_same_requests (name : string) (b : bool) :
  preserves same_requests (os.makedirs name b).
Proof.
  intros w. unfold os.makedirs. case_decide; [done|].
  by destruct (makedirs_rev_grows (rev (path_components name)) b w)
    as (f & -> & _).
Qed.

Lemma makedirs_writes_nothing (target : Path) (name : string) (b : bool) :
  preserves (writes_chart_only target) (os.makedirs name b).
Proof.
  intros w p d Hp. left. unfold os.makedirs in Hp.
  case_decide; [done|].
  destruct (makedirs_rev_grows (rev (path_components name)) b w)
    as (f & Hw & _ & Hback).
  rewrite Hw in Hp. by apply Hback.
Qed.

(** The run of [fetch_metric], shared by the statements below. *)
Lemma fetch_metric_run (client : monitoring_v3.MetricServiceClient)
    (project filter_ : string) (interval : TimeInterval) (w : World) :
  fetch_metric client project filter_ interval w
  = (backend w {| req_name := String.append "projects/" project;
                  req_filter := filter_;
                  req_interval := interval;
                  req_view := FULL |},
     set_requests
       (requests w ++ [{| req_name := String.append "projects/" project;
                          req_filter := filter_;
                          req_interval := interval;
                          req_view := FULL |}]) w).
Proof.
  unfold fetch_metric, bind, monitoring_v3.list_time_series, ret.
  by destruct (backend w _).
Qed.

(** Unfold one [let*] after another, giving each step's frame property. *)
Ltac step_through R_refl R_trans :=
  repeat first
    [ apply (preserves_bind _ R_trans); [|intros ?]
    | apply (preserves_for_each _ R_refl R_trans); intros ?
    | apply (preserves_ret _ R_refl)
    | apply (preserves_lift _ R_refl) ].

(** What [os.makedirs] leaves of the world besides the tree. *)
Lemma makedirs_world (name : string) (b : bool) (w : World) :
  ∃ f, (os.makedirs name b w).2 = set_fs f w.
Proof.
  unfold os.makedirs. case_decide.
  - exists (fs w). by rewrite set_fs_same.
  - destruct (makedirs_rev_grows (rev (path_components name)) b w)
      as (f & Hf & _).
    by exists f.
Qed.

(** Lines 56-69 issue no query. *)
Lemma frames_and_plot_same_requests (out : string) (series : list TimeSeries) :
  preserves same_requests
    (let* frames := lift (frames_loop series []) in
     let* _ := plt_figure in
     let* _ := for_each frames
                 (fun f => let* col := lift (pd.getitem "value" f) in
                           Series_plot col) in
     let* _ := plt_title "CPU utilization" in
     let* _ := plt_xlabel "time" in
     let* _ := plt_ylabel "utilization" in
     plt_savefig (os.path_join out "cpu_util.png")).
Proof.
  assert (Hrefl : ∀ w, same_requests w w) by done.
  step_through Hrefl same_requests_trans;
    first [ apply Series_plot_same_requests | apply on_gcf_same_requests
          | apply savefig_same_requests | done ].
Qed.

(** C8.  On a machine five and a half hours east of UTC, at the instant
    1700000000 s after the epoch, the window [main] sends does not end now:
    the naive [utcnow()] is read as local time by [timestamp()], so the
    window ends (and starts) 19800 s early.  What [--start] and [--end] say
    makes no difference. *)
Theorem main_query_window_shifted :
  map req_interval
    (requests (main {| out_dir := "results/metrics";
                       start := Some "2023-11-14T00:00:00";
                       end_ := Some "2023-11-14T12:00:00" |}
                 Examples.east_of_utc).2)
  = [{| start_time := {| seconds := 1700000000 - 19800 - 3600; nanos := 0 |};
        end_time := {| seconds := 1700000000 - 19800; nanos := 0 |} |}]
  ∧ requests (main {| out_dir := "results/metrics";
                      start := Some "2023-11-14T00:00:00";
                      end_ := Some "2023-11-14T12:00:00" |}
                Examples.east_of_utc).2
    = requests (main {| out_dir := "results/metrics";
                        start := None; end_ := None |}
                  Examples.east_of_utc).2.
Proof. split; vm_compute; reflexivity. Qed.

(** ** What a run writes (lines 55-69) *)

Section Pure.

Variable R : World → World → Prop.
Hypothesis R_refl : ∀ w, R w w.

(** A step that leaves the world alone. *)
Lemma preserves_pure {A} (c : M A) : (∀ w, (c w).2 = w) → preserves R c.
Proof. intros H w. rewrite H. apply R_refl. Qed.

End Pure.

Lemma environ_getitem_pure (key : string) (w : World) :
  (os.environ_getitem key w).2 = w.
Proof. unfold os.environ_getitem. by destruct (environ w !! key). Qed.

Lemma fetch_metric_writes_nothing (target : Path)
    (client : monitoring_v3.MetricServiceClient)
    (project filter_ : string) (interval : TimeInterval) :
  preserves (writes_chart_only target)
    (fetch_metric client project filter_ interval).
Proof. intros w p d. rewrite fetch_metric_run. simpl. by left. Qed.

Lemma plt_figure_writes_nothing (target : Path) :
  preserves (writes_chart_only target) plt_figure.
Proof. intros w p d Hp. by left. Qed.

(** C5.  A run writes no tabular export: the only file [main] ever writes is
    the chart [cpu_util.png] in the output directory; every other file of
    the tree after the run was there before it. *)
Theorem main_writes_only_chart (args : Args) (w : World) (p : Path)
    (d : FileData) :
  fs (main args w).2 !! p = Some (File d) →
  fs w !! p = Some (File d)
  ∨ (p = path_components (os.path_join (out_dir args) "cpu_util.png")
     ∧ ∃ fig, d = PNG fig).
Proof.
  set (target := path_components (os.path_join (out_dir args) "cpu_util.png")).
  revert w p d. change (preserves (writes_chart_only target) (main args)).
  unfold main.
  step_through (writes_chart_only_refl target) (writes_chart_only_trans target);
    first
      [ apply makedirs_writes_nothing
      | apply fetch_metric_writes_nothing
      | apply plt_figure_writes_nothing
      | apply Series_plot_writes_nothing
      | apply on_gcf_writes_nothing
      | apply savefig_writes_chart
      | apply preserves_pure;
        [apply writes_chart_only_refl
        |first [apply environ_getitem_pure | reflexivity]] ].
Qed.

Lemma main_writes_only_chart_witness :
  let w := Examples.world_with Examples.fresh_fs (Ok []) in
  let chart := {| plt.lines := []; plt.title := "CPU utilization";
                  plt.xlabel := "time"; plt.ylabel := "utilization" |} in
  fs (main Examples.args0 w).2 !! ["results"; "metrics"; "cpu_util.png"]
  = Some (File (PNG chart))
  ∧ (fs w !! ["results"; "metrics"; "cpu_util.png"] = Some (File (PNG chart))
     ∨ (["results"; "metrics"; "cpu_util.png"]
        = path_components (os.path_join "results/metrics" "cpu_util.png")
        ∧ ∃ fig, PNG chart = PNG fig)).
Proof.
  intros w chart.
  assert (H : fs (main Examples.args0 w).2
                 !! ["results"; "metrics"; "cpu_util.png"]
              = Some (File (PNG chart))) by (vm_compute; reflexivity).
  split; [exact H|].
  exact (main_writes_only_chart Examples.args0 w _ _ H).
Defined.

(** A run that succeeds leaves the two directories and the chart, and
    nothing else. *)
Example successful_run_tree :
  let run := main Examples.args0
               (Examples.world_with Examples.fresh_fs (Ok [])) in
  run.1 = Ok tt
  ∧ dom (fs run.2)
    = {[ []; ["results"]; ["results"; "metrics"];
         ["results"; "metrics"; "cpu_util.png"] ]}.
Proof.
  split; [vm_compute; reflexivity|].
  apply (bool_decide_unpack _). vm_compute. exact I.
Qed.

(** ** Rendering (lines 63-69) *)

(** Line 59 renames the column [value]; line 65 still asks for it. *)
Lemma getitem_value_renamed (s : TimeSeries) :
  display_key s ≠ "value" →
  pd.getitem "value" (frame_of s) = Raise (KeyError "value").
Proof.
  intros Hk. unfold pd.getitem, frame_of. cbn [pd.columns pd.find_column].
  by rewrite decide_False.
Qed.

(** C4.  For a fetched list holding one series named [a], no line is drawn
    and no image is saved: line 65 raises [KeyError] on the renamed
    column. *)
Theorem chart_not_saved_for_named_series :
  named_series_run.1 = Raise (KeyError "value")
  ∧ fs named_series_run.2 !! ["results"; "metrics"; "cpu_util.png"] = None
  ∧ map plt.lines (figures named_series_run.2) = [[]].
Proof. repeat split; vm_compute; reflexivity. Qed.

(** * Further properties of the script *)

(** ** [timeseries_to_df] (lines 7-18) *)

(** The frame of a series: without points it has no columns at all, not
    even [time]; with points it has the columns [time] and [value], in this
    order, one cell per point, and the default range index.  The [value]
    cells are the row values under the dtype pandas gives the column. *)
Theorem timeseries_to_df_shape (series : TimeSeries) :
  timeseries_to_df series
  = match points series with
    | [] => {| pd.index := pd.RangeIndex 0; pd.columns := [] |}
    | _ :: _ =>
        {| pd.index := pd.RangeIndex (length (points series));
           pd.columns :=
             [("time", map point_time (points series));
              ("value", pd.coerce_column (map point_value (points series)))] |}
    end.
Proof.
  destruct (points series) as [|p ps] eqn:Hp.
  - unfold timeseries_to_df. rewrite timeseries_rows_map, Hp. reflexivity.
  - rewrite timeseries_to_df_nonempty by (rewrite Hp; done).
    unfold value_cells. by rewrite Hp.
Qed.

(** What a row's value can be: [None] exactly when both fields read as
    zero; a float only when the double member is set, and then one that
    does not compare equal to zero; an integer only when the int64 member is
    set, and then a non-zero one.  So no row ever carries a numeric zero. *)
Theorem point_value_cases (point : Point) :
  match point_value point with
  | PyNone =>
      float_truthy (double_value (value point)) = false
      ∧ int64_value (value point) = 0
  | PyFloat d => value point = DoubleValue d ∧ float_truthy d = true
  | PyInt i => value point = Int64Value i ∧ i ≠ 0
  | PyTime _ => False
  end.
Proof.
  unfold point_value.
  destruct (value point) as [|b|i|d|s|]; simpl;
    try (change (float_truthy 0) with false; cbv iota; by split).
  - change (float_truthy 0) with false. cbv iota. unfold int_truthy.
    destruct (Z.eqb_spec i 0) as [->|Hi]; simpl; by split.
  - destruct (float_truthy d) eqn:Hd; by split.
Qed.

(** ** The frames loop (lines 56-59) *)

Lemma frames_loop_raise (series : list TimeSeries) (acc : list pd.DataFrame)
    (e : PyError) :
  frames_loop series acc = Raise e
  ↔ e = KeyError "time" ∧ Exists (λ s, points s = []) series.
Proof.
  revert acc. induction series as [|s series IH]; intros acc; simpl.
  - split; [done|]. intros [_ H]. inversion H.
  - destruct (points s) as [|p ps] eqn:Hp.
    + rewrite series_frame_empty by done. split.
      * intros [= <-]. split; [done|]. by left.
      * by intros [-> _].
    + rewrite series_frame_nonempty by (rewrite Hp; done).
      rewrite IH. split.
      * intros [-> H]. split; [done|]. by right.
      * intros [-> H]. split; [done|].
        inversion H as [? ? H0|? ? H0]; subst; [|done].
        rewrite Hp in H0. discriminate H0.
Qed.

(** The loop fails exactly when some series has no points, and then always
    with [KeyError('time')], whatever the other series hold: the empty frame
    has no [time] column to index by. *)
Theorem frames_loop_raises_iff (series : list TimeSeries) (e : PyError) :
  frames_loop series [] = Raise e
  ↔ e = KeyError "time" ∧ Exists (λ s, points s = []) series.
Proof. apply frames_loop_raise. Qed.

(** ** The stages of [main] *)

(** [main] once the directory is set up and the project is known: one
    query, then lines 56-69 on its answer. *)
Lemma main_run (args : Args) (w w1 : World) (project : string) :
  os.makedirs (out_dir args) true w = (Ok tt, w1) →
  environ w !! "GOOGLE_CLOUD_PROJECT" = Some project →
  main args w
  = match backend w (main_request w project) with
    | Ok series =>
        main_frames_and_plot (out_dir args) series
          (set_requests (requests w ++ [main_request w project]) w1)
    | Raise e =>
        (Raise e, set_requests (requests w ++ [main_request w project]) w1)
    end.
Proof.
  intros Hrun Henv. unfold main.
  destruct (makedirs_world (out_dir args) true w) as [f Hf].
  rewrite Hrun in Hf. simpl in Hf. subst w1.
  rewrite (bind_ok _ _ _ _ _ Hrun). cbv beta zeta.
  erewrite bind_ok by reflexivity. cbv beta zeta.
  erewrite bind_ok
    by (unfold os.environ_getitem; cbn [environ set_fs]; rewrite Henv; reflexivity).
  cbv beta zeta.
  erewrite bind_ok by reflexivity. cbv beta zeta.
  erewrite bind_ok by reflexivity. cbv beta zeta.
  erewrite bind_ok by reflexivity. cbv beta zeta.
  erewrite bind_ok
    by (unfold os.environ_getitem; cbn [environ set_fs]; rewrite Henv; reflexivity).
  cbv beta zeta.
  unfold bind at 1. rewrite fetch_metric_run.
  change (backend (set_fs f w)) with (backend w).
  change (requests (set_fs f w)) with (requests w).
  change (clock (set_fs f w)) with (clock w).
  change (utcoffset (set_fs f w)) with (utcoffset w).
  match goal with
  | |- context [backend w ?r] =>
      change r with (main_request w project)
  end.
  by destruct (backend w (main_request w project)).
Qed.

(** When directory setup raises, [main] stops there with the same
    exception: no query is sent and no figure is opened. *)
Theorem main_setup_failure (args : Args) (w w' : World) (e : PyError) :
  os.makedirs (out_dir args) true w = (Raise e, w') →
  main args w = (Raise e, w')
  ∧ requests w' = requests w
  ∧ figures w' = figures w.
Proof.
  intros Hrun. unfold main. rewrite (bind_raise _ _ _ _ _ Hrun).
  destruct (makedirs_world (out_dir args) true w) as [f Hf].
  rewrite Hrun in Hf. simpl in Hf. by subst w'.
Qed.

Lemma main_setup_failure_witness :
  (main Examples.args0
     (Examples.world_with MakedirsExamples.blocked (Ok [Examples.series_a]))).1
  = Raise (NotADirectoryError ["results"; "metrics"])
  ∧ requests
      (main Examples.args0
         (Examples.world_with MakedirsExamples.blocked (Ok [Examples.series_a]))).2
    = [].
Proof.
  destruct (main_setup_failure Examples.args0
              (Examples.world_with MakedirsExamples.blocked (Ok [Examples.series_a]))
              (Examples.world_with MakedirsExamples.blocked (Ok [Examples.series_a]))
              (NotADirectoryError ["results"; "metrics"]))
    as (Hmain & Hreq & _).
  - vm_compute. reflexivity.
  - rewrite Hmain. split; [reflexivity | exact Hreq].
Defined.

(** Without [GOOGLE_CLOUD_PROJECT] in the environment [main] raises
    [KeyError] after the output directory has been made and before any
    query: the world it leaves is the one directory setup left. *)
Theorem main_missing_project (args : Args) (w w1 : World) :
  os.makedirs (out_dir args) true w = (Ok tt, w1) →
  environ w !! "GOOGLE_CLOUD_PROJECT" = None →
  main args w = (Raise (KeyError "GOOGLE_CLOUD_PROJECT"), w1)
  ∧ requests w1 = requests w.
Proof.
  intros Hrun Henv. unfold main.
  destruct (makedirs_world (out_dir args) true w) as [f Hf].
  rewrite Hrun in Hf. simpl in Hf. subst w1.
  rewrite (bind_ok _ _ _ _ _ Hrun). cbv beta zeta.
  erewrite bind_ok by reflexivity. cbv beta zeta.
  erewrite bind_raise
    by (unfold os.environ_getitem; cbn [environ set_fs]; rewrite Henv; reflexivity).
  by split.
Qed.

(** An error of the backend comes out of [main] as it is, after the one
    query; nothing is plotted and nothing is written after directory
    setup. *)
Theorem main_backend_error (args : Args) (w w1 : World) (project : string)
    (e : PyError) :
  os.makedirs (out_dir args) true w = (Ok tt, w1) →
  environ w !! "GOOGLE_CLOUD_PROJECT" = Some project →
  backend w (main_request w project) = Raise e →
  main args w
  = (Raise e, set_requests (requests w ++ [main_request w project]) w1).
Proof.
  intros Hrun Henv Hb. rewrite (main_run args w w1 project Hrun Henv).
  by rewrite Hb.
Qed.

(** A fetched series without points stops [main] at line 59 with
    [KeyError('time')], wherever it stands in the list: the query has been
    sent, no figure is opened and no chart is written. *)
Theorem main_empty_series (args : Args) (w w1 : World) (project : string)
    (series : list TimeSeries) :
  os.makedirs (out_dir args) true w = (Ok tt, w1) →
  environ w !! "GOOGLE_CLOUD_PROJECT" = Some project →
  backend w (main_request w project) = Ok series →
  Exists (λ s, points s = []) series →
  main args w
  = (Raise (KeyError "time"),
     set_requests (requests w ++ [main_request w project]) w1).
Proof.
  intros Hrun Henv Hb Hex. rewrite (main_run args w w1 project Hrun Henv), Hb.
  unfold main_frames_and_plot.
  erewrite bind_raise; [reflexivity|].
  unfold lift. f_equal. apply frames_loop_raise. by split.
Qed.

Lemma main_missing_project_witness :
  (main Examples.args0
     {| fs := Examples.fresh_fs; environ := ∅; clock := 0;
        utcoffset := fun _ => 0; backend := fun _ => Ok [];
        requests := []; figures := [] |}).1
  = Raise (KeyError "GOOGLE_CLOUD_PROJECT").
Proof.
  pose (w := {| fs := Examples.fresh_fs; environ := ∅; clock := 0;
                utcoffset := fun _ => 0;
                backend := fun _ : ListTimeSeriesRequest =>
                             @Ok (list TimeSeries) [];
                requests := []; figures := [] |}).
  destruct (main_missing_project Examples.args0 w
              (os.makedirs "results/metrics" true w).2) as [Hmain _].
  - vm_compute. reflexivity.
  - vm_compute. reflexivity.
  - fold w. rewrite Hmain. reflexivity.
Defined.

Lemma main_backend_error_witness :
  (main Examples.args0
     (Examples.world_with Examples.fresh_fs (Raise (BackendError "denied")))).1
  = Raise (BackendError "denied").
Proof.
  pose (w := Examples.world_with Examples.fresh_fs (Raise (BackendError "denied"))).
  fold w.
  rewrite (main_backend_error Examples.args0 w
             (os.makedirs "results/metrics" true w).2 "proj1"
             (BackendError "denied")).
  - reflexivity.
  - vm_compute. reflexivity.
  - vm_compute. reflexivity.
  - reflexivity.
Defined.

Lemma main_empty_series_witness :
  (main Examples.args0
     (Examples.world_with Examples.fresh_fs
        (Ok [Examples.series_a; Examples.series_of ∅ []]))).1
  = Raise (KeyError "time").
Proof.
  pose (w := Examples.world_with Examples.fresh_fs
               (Ok [Examples.series_a; Examples.series_of ∅ []])).
  fold w.
  rewrite (main_empty_series Examples.args0 w
             (os.makedirs "results/metrics" true w).2 "proj1"
             [Examples.series_a; Examples.series_of ∅ []]).
  - reflexivity.
  - vm_compute. reflexivity.
  - vm_compute. reflexivity.
  - reflexivity.
  - right. left. reflexivity.
Defined.

(** ** Paths (lines 37 and 69) *)

Lemma components_from_sep (s t cur : string) :
  components_from (String.append s (String "/" t)) cur
  = components_from s cur ++ components_from t EmptyString.
Proof.
  revert cur. induction s as [|c s IH]; intros cur; simpl.
  - reflexivity.
  - destruct (Ascii.eqb c "/"); [|apply IH].
    by rewrite IH, app_assoc.
Qed.

Lemma components_from_after_slash (s t cur : string) :
  ends_with_slash s = true →
  components_from (String.append s t) cur
  = components_from s cur ++ components_from t EmptyString.
Proof.
  revert cur. induction s as [|c s IH]; intros cur Hs; [done|].
  destruct s as [|c' s].
  - simpl in Hs. simpl. rewrite Hs.
    unfold flush_component at 3. simpl. by rewrite app_nil_r.
  - change (ends_with_slash (String c (String c' s)))
      with (ends_with_slash (String c' s)) in Hs.
    change (String.append (String c (String c' s)) t)
      with (String c (String.append (String c' s) t)).
    cbn [components_from].
    destruct (Ascii.eqb c "/").
    + by rewrite (IH _ Hs), app_assoc.
    + by rewrite (IH _ Hs).
Qed.

Lemma path_join_relative (a b : string) :
  starts_with_slash b = false →
  path_components (os.path_join a b) = path_components a ++ path_components b.
Proof.
  intros Hb. unfold os.path_join, path_components. rewrite Hb.
  destruct (decide (a = EmptyString)) as [->|Ha]; [done|].
  destruct (ends_with_slash a) eqn:Hs.
  - by apply components_from_after_slash.
  - change (String.append "/" b) with (String "/" b).
    apply components_from_sep.
Qed.

(** [os.path.join(a, b)] with a relative [b] resolves to the components of
    [a] followed by those of [b], whether or not [a] ends in a slash: the
    chart of line 69 lies directly in the output directory. *)
Theorem path_join_components (a b : string) :
  starts_with_slash b = false →
  path_components (os.path_join a b) = path_components a ++ path_components b.
Proof. apply path_join_relative. Qed.

Lemma path_join_components_witness :
  path_components (os.path_join "results/metrics/" "cpu_util.png")
  = ["results"; "metrics"; "cpu_util.png"].
Proof.
  rewrite (path_join_components "results/metrics/" "cpu_util.png").
  - reflexivity.
  - reflexivity.
Defined.

Lemma chart_path_components (out : string) :
  chart_path out = path_components out ++ ["cpu_util.png"].
Proof.
  unfold chart_path. by rewrite path_join_relative.
Qed.

(** ** Creating the output directory (line 37) *)

Lemma mkdir_adds (p q : Path) (n : Node) (w : World) :
  fs (os.mkdir p w).2 !! q = Some n →
  fs w !! q = Some n ∨ (q = p ∧ n = Dir).
Proof.
  unfold os.mkdir. destruct (fs w !! p) eqn:Hp; [by left|].
  destruct (fs w !! os.parent p) as [[|d]|]; try (by left).
  simpl. intros Hq. destruct (decide (p = q)) as [<-|Hne].
  - rewrite lookup_insert_eq in Hq. injection Hq as <-. by right.
  - rewrite lookup_insert_ne in Hq by done. by left.
Qed.

Lemma try_mkdir_adds (p q : Path) (n : Node) (b : bool) (w : World) :
  fs (os.try_mkdir p b w).2 !! q = Some n →
  fs w !! q = Some n ∨ (q = p ∧ n = Dir).
Proof.
  unfold os.try_mkdir. pose proof (mkdir_adds p q n w) as H.
  destruct (os.mkdir p w) as [[[]|e] w']; simpl in *; [done|].
  by destruct (negb b || negb (os.isdir p w')).
Qed.

Lemma try_mkdir_adds_prefix (p q : Path) (n : Node) (b : bool) (w : World) :
  fs (os.try_mkdir p b w).2 !! q = Some n →
  fs w !! q = Some n ∨ (q `prefix_of` p ∧ n = Dir).
Proof.
  intros Hq. apply try_mkdir_adds in Hq as [Hq|[-> ->]]; [by left | by right].
Qed.

(** [makedirs] adds nothing but directories on the path it is given. *)
Lemma makedirs_rev_adds (rname : list string) (b : bool) (q : Path) (n : Node) :
  ∀ w, fs (os.makedirs_rev rname b w).2 !! q = Some n →
       fs w !! q = Some n ∨ (q `prefix_of` rev rname ∧ n = Dir).
Proof.
  induction rname as [|tail rhead IH]; intros w;
    [apply try_mkdir_adds_prefix|].
  destruct rhead as [|t2 rh2]; [apply try_mkdir_adds_prefix|].
  rewrite makedirs_rev_step.
  destruct (os.exists_ (rev (t2 :: rh2)) w); [apply try_mkdir_adds_prefix|].
  assert (IH' : fs (os.makedirs_rev (t2 :: rh2) b w).2 !! q = Some n →
                fs w !! q = Some n
                ∨ (q `prefix_of` rev (tail :: t2 :: rh2) ∧ n = Dir)).
  { intros Hq. apply IH in Hq as [Hq|[Hpre ->]]; [by left|].
    right. split; [|done].
    change (rev (tail :: t2 :: rh2)) with (rev (t2 :: rh2) ++ [tail]).
    by apply prefix_app_r. }
  rewrite <- swallow_snd in IH'.
  destruct (os.swallow_FileExistsError _) as [[[]|e] w1]; [|exact IH'].
  simpl in IH'. intros Hq.
  apply try_mkdir_adds_prefix in Hq as [Hq|Hq]; [by apply IH' | by right].
Qed.

(** On a well-formed tree where no regular file sits on the path,
    [makedirs] with [exist_ok] succeeds: afterwards the path is a directory
    and the tree is still well-formed; what was there stays, and what is new
    is a directory on the path. *)
Theorem makedirs_creates (name : string) (w : World) :
  fs_wf (fs w) →
  name ≠ EmptyString →
  (∀ q d, q `prefix_of` path_components name → fs w !! q ≠ Some (File d)) →
  ∃ w', os.makedirs name true w = (Ok tt, w')
        ∧ fs w' !! path_components name = Some Dir
        ∧ fs_wf (fs w')
        ∧ (∀ p n, fs w !! p = Some n → fs w' !! p = Some n)
        ∧ (∀ p n, fs w' !! p = Some n →
                  fs w !! p = Some n
                  ∨ (p `prefix_of` path_components name ∧ n = Dir)).
Proof.
  intros Hwf Hname Hfree. unfold os.makedirs.
  rewrite decide_False by done.
  set (rname := rev (path_components name)).
  assert (Hrev : rev rname = path_components name) by apply rev_involutive.
  destruct (os.makedirs_rev rname true w) as [r w'] eqn:Hrun.
  destruct (makedirs_rev_spec rname w r w' Hwf Hrun) as [Hok Herr].
  destruct r as [[]|e].
  - exists w'. split; [done|]. rewrite <- Hrev.
    split; [by apply Hok|]. split; [|split].
    + pose proof (makedirs_rev_wf rname true w Hwf) as H.
      by rewrite Hrun in H.
    + destruct (makedirs_rev_grows rname true w) as (f & Hf & Hfwd & _).
      rewrite Hrun in Hf. simpl in Hf. subst w'. exact Hfwd.
    + intros p n Hp. apply (makedirs_rev_adds rname true p n w).
      by rewrite Hrun.
  - destruct (Herr e eq_refl) as (q & d & Hq & Hd).
    rewrite Hrev in Hq. by destruct (Hfree q d Hq).
Qed.

Lemma makedirs_creates_witness :
  ∃ w', os.makedirs "results/metrics" true
          (Examples.world_with Examples.fresh_fs (Ok [])) = (Ok tt, w')
        ∧ fs w' !! ["results"; "metrics"] = Some Dir.
Proof.
  destruct (makedirs_creates "results/metrics"
              (Examples.world_with Examples.fresh_fs (Ok [])))
    as (w' & Hrun & Hdir & _).
  - apply fs_wf_b_sound. vm_compute. reflexivity.
  - done.
  - intros q d _. simpl. unfold Examples.fresh_fs.
    destruct (decide (q = [])) as [->|Hne].
    + by rewrite lookup_singleton_eq.
    + by rewrite lookup_singleton_ne.
  - exists w'. split; [exact Hrun | exact Hdir].
Defined.

(** Directory setup is idempotent: once it has succeeded, running it again
    changes nothing and succeeds again. *)
Theorem makedirs_twice (name : string) (w w' : World) :
  fs_wf (fs w) →
  os.makedirs name true w = (Ok tt, w') →
  os.makedirs name true w' = (Ok tt, w').
Proof.
  intros Hwf Hrun. unfold os.makedirs in *.
  destruct (decide (name = EmptyString)); [discriminate Hrun|].
  apply makedirs_rev_existing.
  - pose proof (makedirs_rev_wf (rev (path_components name)) true w Hwf) as H.
    by rewrite Hrun in H.
  - by apply (makedirs_rev_spec _ _ _ _ Hwf Hrun).
Qed.

Lemma makedirs_twice_witness :
  let w := Examples.world_with Examples.fresh_fs (Ok []) in
  os.makedirs "results/metrics" true (os.makedirs "results/metrics" true w).2
  = (Ok tt, (os.makedirs "results/metrics" true w).2).
Proof.
  intros w. apply (makedirs_twice "results/metrics" w).
  - apply fs_wf_b_sound. vm_compute. reflexivity.
  - vm_compute. reflexivity.
Defined.

(** ** Plotting (lines 63-69) *)

Lemma getitem_value_ok (s : TimeSeries) :
  display_key s = "value" →
  pd.getitem "value" (frame_of s)
  = Ok {| pd.s_index := pd.LabelIndex "time" (map point_time (points s));
          pd.s_name := "value";
          pd.s_values := value_cells s |}.
Proof.
  intros Hk. unfold pd.getitem, frame_of. cbn [pd.columns pd.find_column pd.index].
  by rewrite Hk, decide_True.
Qed.

Lemma set_figures_same (w : World) : set_figures (figures w) w = w.
Proof. by destruct w. Qed.

Lemma point_value_number_or_None (p : Point) :
  pd.is_number_or_None (point_value p) = true.
Proof.
  unfold point_value.
  destruct (float_truthy _); [done|]. by destruct (int_truthy _).
Qed.

(** When is the [value] column of a frame numeric. *)
Lemma numeric_cells (s : TimeSeries) :
  plottable s = true → forallb pd.is_number (value_cells s) = true.
Proof.
  unfold plottable, value_cells, pd.coerce_column. intros Hex.
  set (cells := map point_value (points s)) in *.
  assert (Hall : forallb pd.is_number_or_None cells = true).
  { apply forallb_forall. intros v Hv. apply in_map_iff in Hv as (p & <- & _).
    apply point_value_number_or_None. }
  destruct (forallb pd.is_int cells) eqn:Hint.
  - apply forallb_forall. intros v Hv.
    rewrite forallb_forall in Hint. specialize (Hint v Hv). by destruct v.
  - rewrite Hex, Hall. simpl.
    apply forallb_forall. intros v Hv. apply in_map_iff in Hv as (v' & <- & Hv').
    rewrite forallb_forall in Hall. specialize (Hall v' Hv'). by destruct v'.
Qed.

Lemma object_cells (s : TimeSeries) :
  points s ≠ [] → plottable s = false →
  forallb pd.is_number (value_cells s) = false.
Proof.
  unfold plottable, value_cells, pd.coerce_column. intros Hne Hex.
  set (cells := map point_value (points s)) in *.
  assert (Hcells : ∃ v rest, cells = v :: rest ∧ pd.is_number v = false).
  { unfold cells in *. destruct (points s) as [|p ps]; [done|].
    simpl in Hex. apply orb_false_elim in Hex as [Hv _]. eauto. }
  destruct Hcells as (v & rest & Hc & Hv). rewrite Hc in *.
  assert (Hint : forallb pd.is_int (v :: rest) = false)
    by (simpl; destruct v; done).
  rewrite Hint, Hex. simpl. by rewrite Hv.
Qed.

Lemma Series_plot_numeric (col : pd.Series) (w : World) :
  forallb pd.is_number (pd.s_values col) = true →
  Series_plot col w
  = on_gcf (plt.add_line
              {| plt.line_label := pd.s_name col;
                 plt.xdata := match pd.s_index col with
                              | pd.RangeIndex n =>
                                  map (fun i => PyInt (Z.of_nat i)) (seq 0 n)
                              | pd.LabelIndex _ ls => ls
                              end;
                 plt.ydata := pd.s_values col |}) w.
Proof. intros H. unfold Series_plot. by rewrite H. Qed.

Lemma Series_plot_object (col : pd.Series) (w : World) :
  forallb pd.is_number (pd.s_values col) = false →
  Series_plot col w = (Raise (TypeError "no numeric data to plot"), w).
Proof. intros H. unfold Series_plot. by rewrite H. Qed.

(** The loop of lines 64-65 on frames whose column is still [value] and
    numeric: one line per frame is added to the current figure, in order. *)
Lemma plot_loop_ok (series : list TimeSeries) :
  ∀ (fig : plt.Figure) (rest : list plt.Figure) (w : World),
    figures w = fig :: rest →
    Forall (λ s, display_key s = "value" ∧ plottable s = true) series →
    for_each (map frame_of series)
      (fun f => let* col := lift (pd.getitem "value" f) in Series_plot col) w
    = (Ok tt,
       set_figures
         ({| plt.lines := plt.lines fig ++ map series_line series;
             plt.title := plt.title fig;
             plt.xlabel := plt.xlabel fig;
             plt.ylabel := plt.ylabel fig |} :: rest) w).
Proof.
  induction series as [|s series IH]; intros fig rest w Hfig Hall.
  - simpl. rewrite app_nil_r. unfold ret. f_equal.
    destruct fig. simpl. rewrite <- Hfig. by rewrite set_figures_same.
  - inversion Hall as [|? ? [Hk Hs] Hrest]; subst.
    cbn [map for_each].
    erewrite bind_ok; [|erewrite bind_ok;
                        [|unfold lift; by rewrite getitem_value_ok];
                        rewrite Series_plot_numeric by (by apply numeric_cells);
                        unfold on_gcf; rewrite Hfig; reflexivity].
    cbv beta.
    rewrite (IH (plt.add_line (series_line s) fig) rest) by done.
    unfold plt.add_line, series_line. simpl.
    by rewrite <- app_assoc.
Qed.

(** The loop stops at the first frame that is renamed or has no numeric
    data; only the figures have changed by then. *)
Lemma plot_loop_stops (good : list TimeSeries) (s : TimeSeries)
    (rest : list TimeSeries) :
  ∀ w : World,
    Forall (λ s, display_key s = "value" ∧ plottable s = true) good →
    points s ≠ [] →
    display_key s ≠ "value" ∨ plottable s = false →
    ∃ figs,
      for_each (map frame_of (good ++ s :: rest))
        (fun f => let* col := lift (pd.getitem "value" f) in Series_plot col) w
      = (Raise (plot_error s), set_figures figs w).
Proof.
  induction good as [|g good IH]; intros w Hgood Hne Hbad.
  - exists (figures w). rewrite set_figures_same.
    cbn [app map for_each]. unfold plot_error.
    destruct (decide (display_key s = "value")) as [Hk|Hk].
    + destruct Hbad as [Hbad|Hbad]; [done|].
      erewrite bind_raise; [reflexivity|].
      erewrite bind_ok by (unfold lift; by rewrite getitem_value_ok).
      cbv beta. rewrite Series_plot_object by (by apply object_cells).
      reflexivity.
    + erewrite bind_raise; [reflexivity|].
      erewrite bind_raise; [reflexivity|].
      unfold lift. by rewrite getitem_value_renamed.
  - inversion Hgood as [|? ? [Hk Hg] Hgood']; subst.
    cbn [app map for_each].
    erewrite bind_ok; [|erewrite bind_ok;
                        [|unfold lift; by rewrite getitem_value_ok];
                        rewrite Series_plot_numeric by (by apply numeric_cells);
                        reflexivity].
    cbv beta.
    match goal with
    | |- context [for_each _ _ ?w1] =>
        destruct (IH w1 Hgood' Hne Hbad) as [figs Hfigs]
    end.
    exists figs. by rewrite Hfigs.
Qed.

(** The run of [main] when the plot loop stops at series [s]. *)
Lemma main_plot_stops (args : Args) (w w1 : World) (project : string)
    (good : list TimeSeries) (s : TimeSeries) (rest : list TimeSeries) :
  os.makedirs (out_dir args) true w = (Ok tt, w1) →
  environ w !! "GOOGLE_CLOUD_PROJECT" = Some project →
  backend w (main_request w project) = Ok (good ++ s :: rest) →
  Forall (λ s, points s ≠ []) (good ++ s :: rest) →
  Forall (λ s, display_key s = "value" ∧ plottable s = true) good →
  display_key s ≠ "value" ∨ plottable s = false →
  ∃ figs,
    main args w
    = (Raise (plot_error s),
       set_figures figs
         (set_requests (requests w ++ [main_request w project]) w1)).
Proof.
  intros Hrun Henv Hb Hall Hgood Hbad.
  assert (Hne : points s ≠ []).
  { apply Forall_app in Hall as [_ Hall]. by inversion Hall. }
  rewrite (main_run args w w1 project Hrun Henv), Hb.
  unfold main_frames_and_plot.
  erewrite bind_ok by (unfold lift; rewrite frames_loop_ok by done; reflexivity).
  cbv beta. erewrite bind_ok by reflexivity. cbv beta.
  set (w2 := set_figures _ _).
  destruct (plot_loop_stops good s rest w2 Hgood Hne Hbad) as [figs Hfigs].
  exists figs. erewrite bind_raise by exact Hfigs. reflexivity.
Qed.

(** When every fetched series has points and the first one the plot loop
    cannot handle is a series not named [value], [main] stops at line 65
    with [KeyError('value')]: the query has been sent and only pyplot's
    figures have changed since, so the tree is as directory setup left it
    and no chart is saved. *)
Theorem main_renamed_column (args : Args) (w w1 : World) (project : string)
    (good : list TimeSeries) (s : TimeSeries) (rest : list TimeSeries) :
  os.makedirs (out_dir args) true w = (Ok tt, w1) →
  environ w !! "GOOGLE_CLOUD_PROJECT" = Some project →
  backend w (main_request w project) = Ok (good ++ s :: rest) →
  Forall (λ s, points s ≠ []) (good ++ s :: rest) →
  Forall (λ s, display_key s = "value" ∧ plottable s = true) good →
  display_key s ≠ "value" →
  ∃ figs,
    main args w
    = (Raise (KeyError "value"),
       set_figures figs
         (set_requests (requests w ++ [main_request w project]) w1)).
Proof.
  intros Hrun Henv Hb Hall Hgood Hk.
  destruct (main_plot_stops args w w1 project good s rest Hrun Henv Hb Hall
              Hgood (or_introl Hk)) as [figs Hmain].
  exists figs. rewrite Hmain. unfold plot_error. by rewrite decide_False.
Qed.

Lemma main_renamed_column_witness :
  (main Examples.args0
     (Examples.world_with Examples.fresh_fs (Ok [Examples.series_a]))).1
  = Raise (KeyError "value").
Proof.
  pose (w := Examples.world_with Examples.fresh_fs (Ok [Examples.series_a])).
  fold w.
  destruct (main_renamed_column Examples.args0 w
              (os.makedirs "results/metrics" true w).2 "proj1"
              [] Examples.series_a []) as [figs Hmain].
  - vm_compute. reflexivity.
  - vm_compute. reflexivity.
  - reflexivity.
  - repeat constructor; done.
  - constructor.
  - vm_compute. discriminate.
  - by rewrite Hmain.
Defined.

(** When every fetched series has points and the first one the plot loop
    cannot handle is named [value] but has [None] for every row value (all
    its points read as zero), [main] stops at line 65 with
    [TypeError('no numeric data to plot')]; again no chart is saved. *)
Theorem main_no_numeric_data (args : Args) (w w1 : World) (project : string)
    (good : list TimeSeries) (s : TimeSeries) (rest : list TimeSeries) :
  os.makedirs (out_dir args) true w = (Ok tt, w1) →
  environ w !! "GOOGLE_CLOUD_PROJECT" = Some project →
  backend w (main_request w project) = Ok (good ++ s :: rest) →
  Forall (λ s, points s ≠ []) (good ++ s :: rest) →
  Forall (λ s, display_key s = "value" ∧ plottable s = true) good →
  display_key s = "value" →
  plottable s = false →
  ∃ figs,
    main args w
    = (Raise (TypeError "no numeric data to plot"),
       set_figures figs
         (set_requests (requests w ++ [main_request w project]) w1)).
Proof.
  intros Hrun Henv Hb Hall Hgood Hk Hs.
  destruct (main_plot_stops args w w1 project good s rest Hrun Henv Hb Hall
              Hgood (or_intror Hs)) as [figs Hmain].
  exists figs. rewrite Hmain. unfold plot_error. by rewrite decide_True.
Qed.

Lemma main_no_numeric_data_witness :
  (main Examples.args0
     (Examples.world_with Examples.fresh_fs
        (Ok [Examples.series_of {[ "instance_name" := "value" ]}
               [Examples.point_at 1 (DoubleValue 0)];
             Examples.series_a]))).1
  = Raise (TypeError "no numeric data to plot").
Proof.
  pose (zero := Examples.series_of {[ "instance_name" := "value" ]}
                  [Examples.point_at 1 (DoubleValue 0)]).
  pose (w := Examples.world_with Examples.fresh_fs
               (Ok [zero; Examples.series_a])).
  fold zero. fold w.
  destruct (main_no_numeric_data Examples.args0 w
              (os.makedirs "results/metrics" true w).2 "proj1"
              [] zero [Examples.series_a]) as [figs Hmain].
  - vm_compute. reflexivity.
  - vm_compute. reflexivity.
  - reflexivity.
  - repeat constructor; done.
  - constructor.
  - vm_compute. reflexivity.
  - vm_compute. reflexivity.
  - by rewrite Hmain.
Defined.

(** After a successful directory setup the output directory is there and
    the chart's place in it is not taken by a directory, unless it was
    before. *)
Lemma chart_place_after_setup (out : string) (w w1 : World) :
  fs_wf (fs w) →
  os.makedirs out true w = (Ok tt, w1) →
  fs w !! chart_path out ≠ Some Dir →
  fs w1 !! os.parent (chart_path out) = Some Dir
  ∧ fs w1 !! chart_path out ≠ Some Dir.
Proof.
  intros Hwf Hrun Hfree. unfold os.makedirs in Hrun.
  destruct (decide (out = EmptyString)); [discriminate Hrun|].
  rewrite chart_path_components in *. rewrite parent_snoc. split.
  - destruct (makedirs_rev_spec _ _ _ _ Hwf Hrun) as [Hok _].
    rewrite rev_involutive in Hok. by apply Hok.
  - intros Hdir.
    pose proof (makedirs_rev_adds (rev (path_components out)) true
                  (path_components out ++ ["cpu_util.png"]) Dir w) as Hadd.
    rewrite Hrun, rev_involutive in Hadd.
    destruct (Hadd Hdir) as [H|[Hpre _]]; [done|].
    apply prefix_length in Hpre. rewrite length_app in Hpre. simpl in Hpre. lia.
Qed.

(** The only runs that reach [savefig]: every fetched series has points, of
    which at least one has a number for its row value, and carries the label
    [instance_name = value] (or the list is empty).  Then [main] succeeds;
    the chart has one line per series, in order, with the timestamps as
    abscissae and the cells of the [value] column as ordinates, the fixed
    title and axis labels, and is written to [<out-dir>/cpu_util.png], over
    any file of that name. *)
Theorem main_success (args : Args) (w w1 : World) (project : string)
    (series : list TimeSeries) :
  fs_wf (fs w) →
  os.makedirs (out_dir args) true w = (Ok tt, w1) →
  environ w !! "GOOGLE_CLOUD_PROJECT" = Some project →
  backend w (main_request w project) = Ok series →
  Forall (λ s, points s ≠ [] ∧ display_key s = "value" ∧ plottable s = true)
         series →
  fs w !! chart_path (out_dir args) ≠ Some Dir →
  main args w
  = (Ok tt,
     set_fs (<[chart_path (out_dir args) := File (PNG (chart_of series))]> (fs w1))
       (set_figures (chart_of series :: figures w)
          (set_requests (requests w ++ [main_request w project]) w1))).
Proof.
  intros Hwf Hrun Henv Hb Hall Hfree.
  destruct (chart_place_after_setup _ _ _ Hwf Hrun Hfree) as [Hparent Hnodir].
  destruct (makedirs_world (out_dir args) true w) as [f Hf].
  rewrite Hrun in Hf. simpl in Hf. subst w1.
  rewrite (main_run args w _ project Hrun Henv), Hb.
  unfold main_frames_and_plot.
  erewrite bind_ok
    by (unfold lift; rewrite frames_loop_ok;
        [reflexivity | eapply Forall_impl; [exact Hall | by intros ? [? ?]]]).
  cbv beta. erewrite bind_ok by reflexivity. cbv beta.
  erewrite bind_ok
    by (apply plot_loop_ok;
        [reflexivity | eapply Forall_impl; [exact Hall | by intros ? [? ?]]]).
  cbv beta.
  erewrite bind_ok by reflexivity. cbv beta.
  erewrite bind_ok by reflexivity. cbv beta.
  erewrite bind_ok by reflexivity. cbv beta.
  unfold plt_savefig. fold (chart_path (out_dir args)).
  cbn [fs set_fs set_figures set_requests] in *.
  rewrite Hparent.
  destruct (f !! chart_path (out_dir args)) as [[|d]|]; [done| |]; reflexivity.
Qed.

Lemma main_success_witness :
  let w := Examples.world_with Examples.fresh_fs
             (Ok [Examples.series_of {[ "instance_name" := "value" ]}
                    [Examples.point_at 1 (DoubleValue 10);
                     Examples.point_at 2 (Int64Value 0)]]) in
  (main Examples.args0 w).1 = Ok tt
  ∧ fs (main Examples.args0 w).2 !! ["results"; "metrics"; "cpu_util.png"]
    = Some (File (PNG
        {| plt.lines :=
             [{| plt.line_label := "value";
                 plt.xdata := [PyTime {| seconds := 1; nanos := 0 |};
                               PyTime {| seconds := 2; nanos := 0 |}];
                 plt.ydata := [PyFloat 10; PyFloat pd.nan] |}];
           plt.title := "CPU utilization";
           plt.xlabel := "time";
           plt.ylabel := "utilization" |})).
Proof.
  intros w.
  rewrite (main_success Examples.args0 w
             (os.makedirs "results/metrics" true w).2 "proj1"
             [Examples.series_of {[ "instance_name" := "value" ]}
                [Examples.point_at 1 (DoubleValue 10);
                 Examples.point_at 2 (Int64Value 0)]]).
  - split; [reflexivity | vm_compute; reflexivity].
  - apply fs_wf_b_sound. vm_compute. reflexivity.
  - vm_compute. reflexivity.
  - vm_compute. reflexivity.
  - reflexivity.
  - repeat constructor; done.
  - vm_compute. discriminate.
Defined.

(** ** What a run leaves alone *)

Lemma keeps_entries_refl (target : Path) (w : World) :
  keeps_entries_except target w w.
Proof. by intros p n _ Hp. Qed.

Lemma keeps_entries_trans (target : Path) (w1 w2 w3 : World) :
  keeps_entries_except target w1 w2 → keeps_entries_except target w2 w3 →
  keeps_entries_except target w1 w3.
Proof. intros H12 H23 p n Hne Hp. apply H23; [done|]. by apply H12. Qed.

Lemma makedirs_keeps_entries (target : Path) (name : string) (b : bool) :
  preserves (keeps_entries_except target) (os.makedirs name b).
Proof.
  intros w p n _ Hp. unfold os.makedirs. case_decide; [done|].
  destruct (makedirs_rev_grows (rev (path_components name)) b w)
    as (f & -> & Hfwd & _).
  by apply Hfwd.
Qed.

Lemma fetch_metric_keeps_entries (target : Path)
    (client : monitoring_v3.MetricServiceClient)
    (project filter_ : string) (interval : TimeInterval) :
  preserves (keeps_entries_except target)
    (fetch_metric client project filter_ interval).
Proof. intros w p n _ Hp. by rewrite fetch_metric_run. Qed.

Lemma on_gcf_keeps_entries (target : Path) (f : plt.Figure → plt.Figure) :
  preserves (keeps_entries_except target) (on_gcf f).
Proof. by intros w p n _ Hp. Qed.

Lemma Series_plot_keeps_entries (target : Path) (s : pd.Series) :
  preserves (keeps_entries_except target) (Series_plot s).
Proof. intros w p n _ Hp. unfold Series_plot. by destruct (negb _). Qed.

Lemma plt_figure_keeps_entries (target : Path) :
  preserves (keeps_entries_except target) plt_figure.
Proof. by intros w p n _ Hp. Qed.

Lemma savefig_keeps_entries (path : string) :
  preserves (keeps_entries_except (path_components path)) (plt_savefig path).
Proof.
  intros w p n Hne Hp. unfold plt_savefig.
  destruct (fs w !! os.parent (path_components path)) as [[|?]|]; try done.
  destruct (fs w !! path_components path) as [[|?]|]; try done;
    simpl; by rewrite lookup_insert_ne.
Qed.

(** [main] removes nothing and changes nothing that exists in the tree,
    whatever happens during the run; the one place it may overwrite is
    [<out-dir>/cpu_util.png]. *)
Theorem main_keeps_entries (args : Args) (w : World) (p : Path) (n : Node) :
  p ≠ chart_path (out_dir args) →
  fs w !! p = Some n →
  fs (main args w).2 !! p = Some n.
Proof.
  revert w p n.
  change (preserves (keeps_entries_except (chart_path (out_dir args)))
            (main args)).
  unfold main, chart_path.
  step_through
    (keeps_entries_refl (path_components
                           (os.path_join (out_dir args) "cpu_util.png")))
    (keeps_entries_trans (path_components
                            (os.path_join (out_dir args) "cpu_util.png")));
    first
      [ apply makedirs_keeps_entries
      | apply fetch_metric_keeps_entries
      | apply plt_figure_keeps_entries
      | apply Series_plot_keeps_entries
      | apply on_gcf_keeps_entries
      | apply savefig_keeps_entries
      | apply preserves_pure;
        [apply keeps_entries_refl
        |first [apply environ_getitem_pure | reflexivity]] ].
Qed.

Lemma main_keeps_entries_witness :
  let w := Examples.world_with
             (<[ ["results"; "metrics"; "notes.txt"] := File (Bytes "keep") ]>
                MakedirsExamples.populated)
             (Ok [Examples.series_a]) in
  fs (main Examples.args0 w).2 !! ["results"; "metrics"; "notes.txt"]
  = Some (File (Bytes "keep")).
Proof.
  intros w. apply (main_keeps_entries Examples.args0 w).
  - vm_compute. discriminate.
  - vm_compute. reflexivity.
Defined.

(** ** How many queries a run sends *)

(** The queries of a run, exactly: one, the query of lines 43-53, when
    directory setup succeeds and the project variable is set, whatever
    happens afterwards; none otherwise.  [main] never sends a second
    query. *)
Theorem main_at_most_one_query (args : Args) (w : World) :
  requests (main args w).2
  = requests w
    ++ match (os.makedirs (out_dir args) true w).1,
             environ w !! "GOOGLE_CLOUD_PROJECT" with
       | Ok _, Some project => [main_request w project]
       | _, _ => []
       end.
Proof.
  destruct (makedirs_world (out_dir args) true w) as [f Hf].
  destruct (os.makedirs (out_dir args) true w) as [[[]|e] w1] eqn:Hrun;
    simpl in Hf; subst w1; cbn [fst].
  - destruct (environ w !! "GOOGLE_CLOUD_PROJECT") as [project|] eqn:Henv.
    + rewrite (main_run args w _ project Hrun Henv).
      destruct (backend w (main_request w project)) as [series|err];
        [|reflexivity].
      exact (frames_and_plot_same_requests (out_dir args) series _).
    + rewrite app_nil_r. unfold main.
      rewrite (bind_ok _ _ _ _ _ Hrun). cbv beta zeta.
      erewrite bind_ok by reflexivity. cbv beta zeta.
      erewrite bind_raise
        by (unfold os.environ_getitem; cbn [environ set_fs]; rewrite Henv;
            reflexivity).
      reflexivity.
  - rewrite app_nil_r. unfold main. by rewrite (bind_raise _ _ _ _ _ Hrun).
Qed.
